(** * OpenCvVideoDecoderCalculator

  A shallow embedding of
  [mediapipe/calculators/video/opencv_video_decoder_calculator.cc]:
  the channel-count to image-format mapping [GetImageFormat] and the three
  lifecycle methods [Open], [Process] and [Close] of the calculator, with
  the calculator's private members as an explicit state record and the
  output streams of the [CalculatorContext] as lists of packets.

  The OpenCV decode session ([cv::VideoCapture]) is an interface the
  calculator is parametric in; a list-backed instance ([Tape]) is given
  for the statements that depend on how a session moves through a file. *)

From Stdlib Require Import ZArith List Bool Lia String Sorted.
From Stdlib Require Import Floats.PrimFloat Floats.FloatOps Floats.SpecFloat.
From Stdlib Require Import Uint63.
Import ListNotations.
Open Scope Z_scope.

(** ** C++ scalars: [int], [int64] and [double] *)

Module Cpp.

Definition double := float.

Definition INT_MIN : Z := - 2 ^ 31.
Definition INT_MAX : Z := 2 ^ 31 - 1.
Definition INT64_MIN : Z := - 2 ^ 63.
Definition INT64_MAX : Z := 2 ^ 63 - 1.

(** Two's complement wrap-around of a 32-bit [int] ([decoded_frames_++]). *)
Definition wrap_int (z : Z) : Z := (z - INT_MIN) mod 2 ^ 32 + INT_MIN.

(** The integral part of a double (rounding toward zero); [None] for NaN
    and the infinities. *)
Definition trunc (d : double) : option Z :=
  match Prim2SF d with
  | S754_zero _ => Some 0
  | S754_finite s m e =>
      let mag := if 0 <=? e then Z.shiftl (Zpos m) e
                 else Z.shiftr (Zpos m) (- e) in
      Some (if s then - mag else mag)
  | S754_infinity _ => None
  | S754_nan => None
  end.

(** A floating-integral conversion truncates.  Where the truncated value
    does not fit the destination the C++ standard leaves the result
    open; the value taken here is the one x86-64's [cvttsd2si] delivers
    (the most negative integer). *)
Definition convert_in (lo hi : Z) (d : double) : Z :=
  match trunc d with
  | Some z => if (lo <=? z) && (z <=? hi) then z else lo
  | None => lo
  end.

(** [static_cast<int>(d)] *)
Definition static_cast_int (d : double) : Z := convert_in INT_MIN INT_MAX d.

(** the implicit [double] to [int64] conversion at a call *)
Definition double_to_int64 (d : double) : Z :=
  convert_in INT64_MIN INT64_MAX d.

(** the usual arithmetic conversion of an [int] operand to [double] *)
Definition int_to_double (z : Z) : double :=
  if z <? 0 then PrimFloat.opp (PrimFloat.of_uint63 (Uint63.of_Z (- z)))
  else PrimFloat.of_uint63 (Uint63.of_Z z).

End Cpp.

(** ** ImageFormat::Format

  The enumerators the calculator names. *)

Module ImageFormat.

Inductive Format : Set := UNKNOWN | SRGB | SRGBA | GRAY8.

Definition eqb (a b : Format) : bool :=
  match a, b with
  | UNKNOWN, UNKNOWN | SRGB, SRGB | SRGBA, SRGBA | GRAY8, GRAY8 => true
  | _, _ => false
  end.

(** Modelled from the spec: [ImageFrame::NumberOfChannelsForFormat], which
    lives in [image_frame.cc]; Grayscale8 has one channel, RGB8 three and
    RGBA8 four. *)
Definition NumberOfChannelsForFormat (f : Format) : Z :=
  match f with
  | GRAY8 => 1
  | SRGB => 3
  | SRGBA => 4
  | UNKNOWN => 0
  end.

End ImageFormat.

(** cv::VideoCapture set data type to unsigned char by default. Therefore,
  the image format is only related to the number of channels the cv::Mat
  has. *)
Definition GetImageFormat (num_channels : Z) : ImageFormat.Format :=
match num_channels with
| 1 => ImageFormat.GRAY8
| 3 => ImageFormat.SRGB
| 4 => ImageFormat.SRGBA
| _ => ImageFormat.UNKNOWN
end.

(** ** The parts of OpenCV the calculator calls *)

Module cv.

(** A [cv::Mat] of unsigned bytes: its geometry and its samples, row by
    row, the channels of a pixel next to each other. *)
Record Mat : Type := mkMat
  { rows : Z; cols : Z; channels : Z; data : list Z }.

(** [cv::Mat()], the empty matrix. *)
Definition Mat_default : Mat :=
  {| rows := 0; cols := 0; channels := 1; data := [] |}.

(** [Mat::empty()]: no element or no storage. *)
Definition empty (m : Mat) : bool :=
  (rows m * cols m =? 0) || match data m with [] => true | _ => false end.

(** Whether two matrices have the same size and type: [Mat::create] keeps
    the storage of the destination exactly then. *)
Definition same_shape (a b : Mat) : bool :=
  (rows a =? rows b) && (cols a =? cols b) && (channels a =? channels b).


Inductive ColorConversionCodes : Set := COLOR_BGR2RGB | COLOR_BGRA2RGBA.

(** Number of channels of the destination of a conversion. *)
Definition dstChannels (code : ColorConversionCodes) : Z :=
  match code with COLOR_BGR2RGB => 3 | COLOR_BGRA2RGBA => 4 end.

(** Three-channel pixels, blue and red exchanged. *)
Fixpoint bgr_to_rgb (l : list Z) : list Z :=
  match l with
  | b :: g :: r :: t => r :: g :: b :: bgr_to_rgb t
  | _ => []
  end.

(** Four-channel pixels, blue and red exchanged, alpha kept. *)
Fixpoint bgra_to_rgba (l : list Z) : list Z :=
  match l with
  | b :: g :: r :: a :: t => r :: g :: b :: a :: bgra_to_rgba t
  | _ => []
  end.

(** Four-channel pixels to three channels: alpha is left out. *)
Fixpoint bgra_to_rgb (l : list Z) : list Z :=
  match l with
  | b :: g :: r :: _ :: t => r :: g :: b :: bgra_to_rgb t
  | _ => []
  end.

(** Three-channel pixels to four channels: alpha is the maximum. *)
Fixpoint bgr_to_rgba (l : list Z) : list Z :=
  match l with
  | b :: g :: r :: t => r :: g :: b :: 255 :: bgr_to_rgba t
  | _ => []
  end.

(** The matrix [cv::cvtColor(src, _, code)] computes.  Both codes take a
    source of three or four channels; on any other source OpenCV's
    assertion fails and the call raises a [cv::Exception] instead of
    returning, which is [None] here. *)
Definition cvtColor (src : Mat) (code : ColorConversionCodes) : option Mat :=
  let out (d : list Z) :=
    Some {| rows := rows src; cols := cols src;
            channels := dstChannels code; data := d |} in
  match channels src, code with
  | 3, COLOR_BGR2RGB => out (bgr_to_rgb (data src))
  | 4, COLOR_BGR2RGB => out (bgra_to_rgb (data src))
  | 3, COLOR_BGRA2RGBA => out (bgr_to_rgba (data src))
  | 4, COLOR_BGRA2RGBA => out (bgra_to_rgba (data src))
  | _, _ => None
  end.

(** The capture properties the calculator reads or writes. *)
Inductive VideoCaptureProperties : Set :=
| CAP_PROP_POS_MSEC
| CAP_PROP_POS_AVI_RATIO
| CAP_PROP_FRAME_WIDTH
| CAP_PROP_FRAME_HEIGHT
| CAP_PROP_FPS
| CAP_PROP_FRAME_COUNT.

(** [cv::VideoCapture] as the calculator uses it.  [open] is the
    constructor from a file name; [get] is const; [read] hands back the
    decoded image, empty when no frame could be grabbed, and the session
    after the call. *)
Class VideoCapture (S : Type) : Type :=
  { open : string -> S;
    isOpened : S -> bool;
    get : S -> VideoCaptureProperties -> Cpp.double;
    read : S -> Mat * S;
    set : S -> VideoCaptureProperties -> Cpp.double -> S;
    release : S -> S }.

End cv.

(** ** Framework types *)

Module Timestamp.

(** Modelled from the spec: the framework's [Timestamp] class
    ([timestamp.h]).  A timestamp is a count of microseconds or one of the
    distinguished values the calculator names: [Unset], which lies below
    every other timestamp, and [PreStream], which lies below every
    microsecond count. *)
Inductive t : Set :=
| Unset
| PreStream
| Micros (us : Z).

(** [operator<] *)
Definition ltb (a b : t) : bool :=
  match a, b with
  | Unset, Unset => false
  | Unset, _ => true
  | PreStream, Micros _ => true
  | PreStream, _ => false
  | Micros x, Micros y => x <? y
  | Micros _, _ => false
  end.

Definition lt (a b : t) : Prop := ltb a b = true.

Definition le (a b : t) : Prop := ltb b a = false.

End Timestamp.

(** Modelled from the spec: the framework's [ImageFrame]
    ([image_frame.h]): a format, a width, a height and the pixel bytes;
    [PixelData] is [None] as long as nothing was written to the storage the
    constructor allocated. *)
Record ImageFrame : Type := mkImageFrame
  { Format : ImageFormat.Format;
    Width : Z;
    Height : Z;
    PixelData : option (list Z) }.

(** [ImageFrame(format, width, height, /*alignment_boundary=*/1)] *)
Definition new_ImageFrame (format : ImageFormat.Format) (width height : Z)
  : ImageFrame :=
  {| Format := format; Width := width; Height := height; PixelData := None |}.

(** Modelled from the spec: [formats::MatView] ([image_frame_opencv.h]), a
    matrix header over the pixels of an image frame. *)
Definition MatView (f : ImageFrame) : cv.Mat :=
  {| cv.rows := Height f;
     cv.cols := Width f;
     cv.channels := ImageFormat.NumberOfChannelsForFormat (Format f);
     cv.data := match PixelData f with Some d => d | None => [] end |}.

(** The image frame after OpenCV has delivered [m] to a destination that
    was [MatView f]: the bytes land in the frame's storage when [m] has the
    size and type of the view, and in storage of the matrix's own
    otherwise. *)
Definition write_MatView (f : ImageFrame) (m : cv.Mat) : ImageFrame :=
  if cv.same_shape (MatView f) m
  then {| Format := Format f; Width := Width f; Height := Height f;
          PixelData := Some (cv.data m) |}
  else f.

(** [VideoHeader] ([video_stream_header.h]), the fields [Open] fills. *)
Record VideoHeader : Type := mkVideoHeader
  { format : ImageFormat.Format;
    width : Z;
    height : Z;
    frame_rate : Cpp.double;
    duration : Cpp.double }.

(** The four messages [Open] builds an [InvalidArgumentError] with. *)
Inductive Message : Set :=
| FailToOpenVideoFile
| FailToReadAnyFrames
| UnsupportedVideoFormat
| IncorrectMetadata.

(** [::mediapipe::Status], the values the calculator returns. *)
Inductive Status : Set :=
| OkStatus
| StatusStop
| InvalidArgumentError (m : Message).

(** The error kinds of the specification, by message. *)
Inductive ErrorKind : Set :=
| OpenError
| UnsupportedFormatError
| InvalidMetadataError.

Definition error_kind (m : Message) : ErrorKind :=
  match m with
  | FailToOpenVideoFile => OpenError
  | FailToReadAnyFrames => OpenError
  | UnsupportedVideoFormat => UnsupportedFormatError
  | IncorrectMetadata => InvalidMetadataError
  end.

(** Modelled from the spec: an output stream of the framework, the packets
    added to it so far, oldest first, and whether it was closed. *)
Record OutputStream (A : Type) : Type := mkOutputStream
  { packets : list (A * Timestamp.t);
    closed : bool }.

Arguments mkOutputStream {A} _ _.
Arguments packets {A} _.
Arguments closed {A} _.

Definition Add {A : Type} (s : OutputStream A) (x : A) (ts : Timestamp.t)
  : OutputStream A :=
  {| packets := packets s ++ [(x, ts)]; closed := closed s |}.

Definition CloseStream {A : Type} (s : OutputStream A) : OutputStream A :=
  {| packets := packets s; closed := true |}.

(** What the calculator sees of its [CalculatorContext]: the input side
    packet and the two tagged outputs, of which VIDEO_PRESTREAM is there
    only when the graph asks for it ([HasTag]). *)
Record CalculatorContext : Type := mkCalculatorContext
  { INPUT_FILE_PATH : string;
    VIDEO : OutputStream ImageFrame;
    VIDEO_PRESTREAM : option (OutputStream VideoHeader) }.

Definition HasTag_VIDEO_PRESTREAM (cc : CalculatorContext) : bool :=
  match VIDEO_PRESTREAM cc with Some _ => true | None => false end.

(** A context nothing was written to yet. *)
Definition new_context (path : string) (prestream : bool) : CalculatorContext :=
  {| INPUT_FILE_PATH := path;
     VIDEO := {| packets := []; closed := false |};
     VIDEO_PRESTREAM :=
       if prestream then Some {| packets := []; closed := false |} else None |}.

(** The timestamps of the frames on VIDEO, oldest first. *)
Definition video_timestamps (cc : CalculatorContext) : list Timestamp.t :=
  map snd (packets (VIDEO cc)).

(** The one line [Close] may log. *)
Inductive LogLine : Set :=
| WARNING_not_all_decoded (total_frames decoded_frames : Z).

(** ** The calculator *)

(** The private members of [OpenCvVideoDecoderCalculator]; [cap_] is [None]
    for the null pointer. *)
Record Calculator (S : Type) : Type := mkCalculator
  { cap_ : option S;
    width_ : Z;
    height_ : Z;
    frame_count_ : Z;
    decoded_frames_ : Z;
    format_ : ImageFormat.Format;
    prev_timestamp_ : Timestamp.t }.

Arguments mkCalculator {S} _ _ _ _ _ _ _.
Arguments cap_ {S} _.
Arguments width_ {S} _.
Arguments height_ {S} _.
Arguments frame_count_ {S} _.
Arguments decoded_frames_ {S} _.
Arguments format_ {S} _.
Arguments prev_timestamp_ {S} _.

(** A calculator as its constructor leaves it.  [decoded_frames_] and
    [prev_timestamp_] have initialisers; the other members have none and
    hold what their storage held, which is what the four arguments stand
    for. *)
Definition new_Calculator {S : Type} (w h n : Z) (f : ImageFormat.Format)
  : Calculator S :=
  {| cap_ := None; width_ := w; height_ := h; frame_count_ := n;
     decoded_frames_ := 0; format_ := f;
     prev_timestamp_ := Timestamp.Unset |}.

Definition with_cap {S : Type} (c : Calculator S) (cap : S) : Calculator S :=
  {| cap_ := Some cap; width_ := width_ c; height_ := height_ c;
     frame_count_ := frame_count_ c; decoded_frames_ := decoded_frames_ c;
     format_ := format_ c; prev_timestamp_ := prev_timestamp_ c |}.

Definition with_metadata {S : Type} (c : Calculator S) (w h n : Z)
  : Calculator S :=
  {| cap_ := cap_ c; width_ := w; height_ := h; frame_count_ := n;
     decoded_frames_ := decoded_frames_ c; format_ := format_ c;
     prev_timestamp_ := prev_timestamp_ c |}.

Definition with_format {S : Type} (c : Calculator S) (f : ImageFormat.Format)
  : Calculator S :=
  {| cap_ := cap_ c; width_ := width_ c; height_ := height_ c;
     frame_count_ := frame_count_ c; decoded_frames_ := decoded_frames_ c;
     format_ := f; prev_timestamp_ := prev_timestamp_ c |}.

(** [prev_timestamp_ = timestamp; decoded_frames_++;] *)
Definition with_emitted {S : Type} (c : Calculator S) (ts : Timestamp.t)
  : Calculator S :=
  {| cap_ := cap_ c; width_ := width_ c; height_ := height_ c;
     frame_count_ := frame_count_ c;
     decoded_frames_ := Cpp.wrap_int (decoded_frames_ c + 1);
     format_ := format_ c; prev_timestamp_ := ts |}.

Definition add_VIDEO (cc : CalculatorContext) (f : ImageFrame)
  (ts : Timestamp.t) : CalculatorContext :=
  {| INPUT_FILE_PATH := INPUT_FILE_PATH cc;
     VIDEO := Add (VIDEO cc) f ts;
     VIDEO_PRESTREAM := VIDEO_PRESTREAM cc |}.

(** [Outputs().Tag("VIDEO_PRESTREAM").Add(header, Timestamp::PreStream())]
    followed by [.Close()] on the same stream. *)
Definition add_and_close_VIDEO_PRESTREAM (cc : CalculatorContext)
  (header : VideoHeader) : CalculatorContext :=
  {| INPUT_FILE_PATH := INPUT_FILE_PATH cc;
     VIDEO := VIDEO cc;
     VIDEO_PRESTREAM :=
       match VIDEO_PRESTREAM cc with
       | Some s => Some (CloseStream (Add s header Timestamp.PreStream))
       | None => None
       end |}.

(** [fps <= 0 || frame_count_ <= 0 || width_ <= 0 || height_ <= 0] *)
Definition incorrect_metadata (fps : Cpp.double) (frame_count w h : Z) : bool :=
  PrimFloat.leb fps 0%float || (frame_count <=? 0) || (w <=? 0) || (h <=? 0).


(** [Timestamp(cap_->get(cv::CAP_PROP_POS_MSEC) * 1000)]: the position of
    session [cap], in milliseconds, as a timestamp in microseconds. *)
Definition position_timestamp {S : Type} {VC : cv.VideoCapture S} (cap : S)
  : Timestamp.t :=
  Timestamp.Micros
    (Cpp.double_to_int64
       (PrimFloat.mul (cv.get cap cv.CAP_PROP_POS_MSEC) 1000%float)).

Section OpenCvVideoDecoderCalculator.

Context {S : Type} {VC : cv.VideoCapture S}.

(** [Open]: the status, the context and the calculator after the call. *)
Definition Open (cc : CalculatorContext) (c : Calculator S)
  : Status * CalculatorContext * Calculator S :=
  let input_file_path := INPUT_FILE_PATH cc in
  let cap := cv.open input_file_path in
  let c := with_cap c cap in
  if negb (cv.isOpened cap) then
    (InvalidArgumentError FailToOpenVideoFile, cc, c)
  else
    let w := Cpp.static_cast_int (cv.get cap cv.CAP_PROP_FRAME_WIDTH) in
    let h := Cpp.static_cast_int (cv.get cap cv.CAP_PROP_FRAME_HEIGHT) in
    let fps := cv.get cap cv.CAP_PROP_FPS in
    let n := Cpp.static_cast_int (cv.get cap cv.CAP_PROP_FRAME_COUNT) in
    let c := with_metadata c w h n in
    let '(frame, cap) := cv.read cap in
    let c := with_cap c cap in
    if cv.empty frame then
      (InvalidArgumentError FailToReadAnyFrames, cc, c)
    else
      let c := with_format c (GetImageFormat (cv.channels frame)) in
      if ImageFormat.eqb (format_ c) ImageFormat.UNKNOWN then
        (InvalidArgumentError UnsupportedVideoFormat, cc, c)
      else if incorrect_metadata fps (frame_count_ c) (width_ c) (height_ c)
      then
        (InvalidArgumentError IncorrectMetadata, cc, c)
      else
        let header :=
          {| format := format_ c;
             width := width_ c;
             height := height_ c;
             frame_rate := fps;
             duration :=
               PrimFloat.div (Cpp.int_to_double (frame_count_ c)) fps |} in
        let cc :=
          if HasTag_VIDEO_PRESTREAM cc
          then add_and_close_VIDEO_PRESTREAM cc header
          else cc in
        (* Rewind to the very first frame. *)
        let cap := cv.set cap cv.CAP_PROP_POS_AVI_RATIO 0%float in
        (OkStatus, cc, with_cap c cap).

(** The middle of [Process]: the read and the conversion into
    [image_frame], by format.  [inl] is the early return of [StatusStop],
    [inr] the filled frame; both carry the session after the read.  The
    result is [None] when [cv::cvtColor] raises: the calculator does not
    look at the channel count of [tmp_frame] before it converts, and
    nothing catches the exception. *)
Definition Process_decode (c : Calculator S) (cap : S)
  (image_frame : ImageFrame) : option (S + ImageFrame * S) :=
  if ImageFormat.eqb (format_ c) ImageFormat.GRAY8 then
    (* frame is MatView(image_frame) before the read *)
    let '(frame, cap) := cv.read cap in
    if cv.empty frame then Some (inl cap)
    else Some (inr (write_MatView image_frame frame, cap))
  else
    let '(tmp_frame, cap) := cv.read cap in
    if cv.empty tmp_frame then Some (inl cap)
    else if ImageFormat.eqb (format_ c) ImageFormat.SRGB then
      match cv.cvtColor tmp_frame cv.COLOR_BGR2RGB with
      | Some m => Some (inr (write_MatView image_frame m, cap))
      | None => None
      end
    else if ImageFormat.eqb (format_ c) ImageFormat.SRGBA then
      match cv.cvtColor tmp_frame cv.COLOR_BGRA2RGBA with
      | Some m => Some (inr (write_MatView image_frame m, cap))
      | None => None
      end
    else Some (inr (image_frame, cap)).

(** [Process]; [None] when the call does not return a status: [cap_] is
    null, which the calculator dereferences unchecked, or [cv::cvtColor]
    raises. *)
Definition Process (cc : CalculatorContext) (c : Calculator S)
  : option (Status * CalculatorContext * Calculator S) :=
  match cap_ c with
  | None => None
  | Some cap =>
      let image_frame :=
        new_ImageFrame (format_ c) (width_ c) (height_ c) in
      (* Use microsecond as the unit of time. *)
      let timestamp := position_timestamp cap in
      match Process_decode c cap image_frame with
      | None => None
      | Some (inl cap) => Some (StatusStop, cc, with_cap c cap)
      | Some (inr (image_frame, cap)) =>
          let c := with_cap c cap in
          (* If the timestamp of the current frame is not greater than the
             one of the previous frame, the new frame will be discarded. *)
          if Timestamp.ltb (prev_timestamp_ c) timestamp then
            Some (OkStatus, add_VIDEO cc image_frame timestamp,
                  with_emitted c timestamp)
          else Some (OkStatus, cc, c)
      end
  end.

(** [Close]: the status, what was logged, and the calculator after. *)
Definition Close (c : Calculator S) : Status * list LogLine * Calculator S :=
  let c' :=
    match cap_ c with
    | Some cap => if cv.isOpened cap then with_cap c (cv.release cap) else c
    | None => c
    end in
  let log :=
    if negb (decoded_frames_ c' =? frame_count_ c') then
      [WARNING_not_all_decoded (frame_count_ c') (decoded_frames_ c')]
    else [] in
  (OkStatus, log, c').

(** [n] invocations of [Process] in a row, whatever status each returns:
    the statuses in order, and the context and calculator at the end;
    [None] when one of the invocations does not return. *)
Fixpoint Steps (n : nat) (cc : CalculatorContext) (c : Calculator S)
  : option (list Status * CalculatorContext * Calculator S) :=
  match n with
  | O => Some ([], cc, c)
  | Datatypes.S n' =>
      match Process cc c with
      | None => None
      | Some (st, cc', c') =>
          match Steps n' cc' c' with
          | None => None
          | Some (sts, cc'', c'') => Some (st :: sts, cc'', c'')
          end
      end
  end.

(** The session after [k] reads. *)
Definition after_reads (k : nat) (cap : S) : S :=
  Nat.iter k (fun s => snd (cv.read s)) cap.

(** The source reports no further frames: this read and every later one
    deliver no frame. *)
Definition no_further_frames (cap : S) : Prop :=
  forall k, cv.empty (fst (cv.read (after_reads k cap))) = true.


End OpenCvVideoDecoderCalculator.

(** ** A decode session over a list of frames

    A video file as a session sees it: what the container reports, the
    frames in order, and the position the session reports once [k] frames
    were grabbed.  The reported numbers are independent of the frames (a
    container may misreport them). *)

Module Tape.

Record File : Type := mkFile
  { readable : bool;
    frame_width : Cpp.double;
    frame_height : Cpp.double;
    fps : Cpp.double;
    frame_count : Cpp.double;
    frames : list cv.Mat;
    pos_msec : nat -> Cpp.double }.

(** A session: the file, how many frames were grabbed, and whether the
    session was released. *)
Record t : Type := mkTape
  { file : File;
    grabbed : nat;
    released : bool }.

Definition open (disk : string -> File) (path : string) : t :=
  {| file := disk path; grabbed := 0%nat; released := false |}.

Definition isOpened (s : t) : bool := readable (file s) && negb (released s).

Definition nat_to_double (n : nat) : Cpp.double :=
  Cpp.int_to_double (Z.of_nat n).

Definition get (s : t) (p : cv.VideoCaptureProperties) : Cpp.double :=
  if isOpened s then
    match p with
    | cv.CAP_PROP_POS_MSEC => pos_msec (file s) (grabbed s)
    | cv.CAP_PROP_POS_AVI_RATIO =>
        PrimFloat.div (nat_to_double (grabbed s))
                      (nat_to_double (List.length (frames (file s))))
    | cv.CAP_PROP_FRAME_WIDTH => frame_width (file s)
    | cv.CAP_PROP_FRAME_HEIGHT => frame_height (file s)
    | cv.CAP_PROP_FPS => fps (file s)
    | cv.CAP_PROP_FRAME_COUNT => frame_count (file s)
    end
  else 0%float.

(** The next frame, if there is one that decodes; the session moves on by
    one frame exactly then. *)
Definition read (s : t) : cv.Mat * t :=
  if isOpened s then
    match nth_error (frames (file s)) (grabbed s) with
    | Some m =>
        if cv.empty m then (cv.Mat_default, s)
        else (m, {| file := file s; grabbed := Datatypes.S (grabbed s);
                    released := released s |})
    | None => (cv.Mat_default, s)
    end
  else (cv.Mat_default, s).

(** Only the relative position can be set: ratio 0 is the first frame, a
    ratio [v] the frame at [v] times the number of frames. *)
Definition set (s : t) (p : cv.VideoCaptureProperties) (v : Cpp.double) : t :=
  match p with
  | cv.CAP_PROP_POS_AVI_RATIO =>
      {| file := file s;
         grabbed :=
           if PrimFloat.eqb v 0%float then 0%nat
           else Z.to_nat (Cpp.double_to_int64
                  (PrimFloat.mul v (nat_to_double (List.length (frames (file s))))));
         released := released s |}
  | _ => s
  end.

Definition release (s : t) : t :=
  {| file := file s; grabbed := grabbed s; released := true |}.

(** Sessions over the files of [disk]. *)
Definition capture (disk : string -> File) : cv.VideoCapture t :=
  {| cv.open := open disk;
     cv.isOpened := isOpened;
     cv.get := get;
     cv.read := read;
     cv.set := set;
     cv.release := release |}.

End Tape.

(** ** Sample files *)

Module Sample.

(** A 2 by 1 frame of three channels whose samples start at [k]. *)
Definition bgr_frame (k : Z) : cv.Mat :=
  {| cv.rows := 1; cv.cols := 2; cv.channels := 3;
     cv.data := [k; k + 1; k + 2; k + 3; k + 4; k + 5] |}.

(** Four frames at 30 frames a second; the third repeats the position of
    the second. *)
Definition clip : Tape.File :=
  {| Tape.readable := true;
     Tape.frame_width := 2%float;
     Tape.frame_height := 1%float;
     Tape.fps := 30%float;
     Tape.frame_count := 4%float;
     Tape.frames := [bgr_frame 10; bgr_frame 20; bgr_frame 30; bgr_frame 40];
     Tape.pos_msec := fun k => nth k [0; 33; 33; 66]%float 100%float |}.

(** A truncated file: the container opens and reports its geometry and
    rate, and holds no frame. *)
Definition no_frames : Tape.File :=
  {| Tape.readable := true;
     Tape.frame_width := 2%float;
     Tape.frame_height := 1%float;
     Tape.fps := 30%float;
     Tape.frame_count := 0%float;
     Tape.frames := [];
     Tape.pos_msec := fun _ => 0%float |}.

(** A path nothing can be opened at. *)
Definition missing : Tape.File :=
  {| Tape.readable := false;
     Tape.frame_width := 0%float;
     Tape.frame_height := 0%float;
     Tape.fps := 0%float;
     Tape.frame_count := 0%float;
     Tape.frames := [];
     Tape.pos_msec := fun _ => 0%float |}.

(** Frames of two channels. *)
Definition two_channels : Tape.File :=
  {| Tape.readable := true;
     Tape.frame_width := 2%float;
     Tape.frame_height := 1%float;
     Tape.fps := 30%float;
     Tape.frame_count := 1%float;
     Tape.frames :=
       [{| cv.rows := 1; cv.cols := 2; cv.channels := 2;
           cv.data := [1; 2; 3; 4] |}];
     Tape.pos_msec := fun _ => 0%float |}.

(** A clip that decodes and whose container reports no frame count. *)
Definition no_count : Tape.File :=
  {| Tape.readable := true;
     Tape.frame_width := 2%float;
     Tape.frame_height := 1%float;
     Tape.fps := 30%float;
     Tape.frame_count := 0%float;
     Tape.frames := [bgr_frame 10];
     Tape.pos_msec := fun _ => 0%float |}.

(** One 2 by 1 frame of a single channel. *)
Definition gray : Tape.File :=
  {| Tape.readable := true;
     Tape.frame_width := 2%float;
     Tape.frame_height := 1%float;
     Tape.fps := 25%float;
     Tape.frame_count := 1%float;
     Tape.frames :=
       [{| cv.rows := 1; cv.cols := 2; cv.channels := 1;
           cv.data := [7; 8] |}];
     Tape.pos_msec := fun _ => 0%float |}.

(** One 2 by 1 frame of four channels. *)
Definition bgra : Tape.File :=
  {| Tape.readable := true;
     Tape.frame_width := 2%float;
     Tape.frame_height := 1%float;
     Tape.fps := 25%float;
     Tape.frame_count := 1%float;
     Tape.frames :=
       [{| cv.rows := 1; cv.cols := 2; cv.channels := 4;
           cv.data := [1; 2; 3; 4; 5; 6; 7; 8] |}];
     Tape.pos_msec := fun _ => 0%float |}.

Definition disk (path : string) : Tape.File :=
  if String.eqb path "clip.mp4" then clip
  else if String.eqb path "no_frames.mp4" then no_frames
  else if String.eqb path "two_channels.mp4" then two_channels
  else if String.eqb path "no_count.mp4" then no_count
  else if String.eqb path "gray.mp4" then gray
  else if String.eqb path "bgra.mp4" then bgra
  else missing.

Definition capture : cv.VideoCapture Tape.t := Tape.capture disk.

(** A session on a file of [disk] with [k] frames grabbed. *)
Definition session (path : string) (k : nat) : Tape.t :=
  {| Tape.file := disk path; Tape.grabbed := k; Tape.released := false |}.

(** [Open] on the clip, from a zeroed calculator, with the header asked
    for. *)
Definition opened : Status * CalculatorContext * Calculator Tape.t :=
  Open (VC := capture) (new_context "clip.mp4" true)
    (new_Calculator 0 0 0 ImageFormat.UNKNOWN).

(** The calculator in the middle of the clip: two frames emitted, the
    last at 33000 microseconds, the third frame next. *)
Definition midway : Calculator Tape.t :=
  {| cap_ := Some (session "clip.mp4" 2);
     width_ := 2; height_ := 1; frame_count_ := 4; decoded_frames_ := 2;
     format_ := ImageFormat.SRGB;
     prev_timestamp_ := Timestamp.Micros 33000 |}.

(** The calculator at the end of the clip. *)
Definition at_end : Calculator Tape.t :=
  {| cap_ := Some (session "clip.mp4" 4);
     width_ := 2; height_ := 1; frame_count_ := 4; decoded_frames_ := 3;
     format_ := ImageFormat.SRGB;
     prev_timestamp_ := Timestamp.Micros 66000 |}.

End Sample.

(** The matrix a decoded frame [m] reaches the output frame as, for each
    format [Open] can leave in [format_]; [None] where the conversion
    raises. *)
Definition as_format (f : ImageFormat.Format) (m : cv.Mat)
  : option cv.Mat :=
  match f with
  | ImageFormat.GRAY8 => Some m
  | ImageFormat.SRGB => cv.cvtColor m cv.COLOR_BGR2RGB
  | ImageFormat.SRGBA => cv.cvtColor m cv.COLOR_BGRA2RGBA
  | ImageFormat.UNKNOWN => Some m
  end.




(** What the invocation number [i] (from 0) of a run that starts on
    session [cap] returns: [StatusStop] when the read it makes yields no
    frame, [OkStatus] otherwise. *)
Definition status_of_read {S : Type} {VC : cv.VideoCapture S} (cap : S)
  (i : nat) : Status :=
  if cv.empty (fst (cv.read (after_reads i cap))) then StatusStop
  else OkStatus.

(** [decoded_frames_] after [k] increments from [d]. *)
Definition incremented (k : nat) (d : Z) : Z :=
  Nat.iter k (fun x => Cpp.wrap_int (x + 1)) d.

(** A frame has the format and the size [f], [w], [h]. *)
Definition frame_has (f : ImageFormat.Format) (w h : Z)
  (p : ImageFrame * Timestamp.t) : Prop :=
  Format (fst p) = f /\ Width (fst p) = w /\ Height (fst p) = h.

(** A file whose container reports a frame rate that is not a number. *)
Module Edge.

Definition nan_rate : Tape.File :=
  {| Tape.readable := true;
     Tape.frame_width := 2%float;
     Tape.frame_height := 1%float;
     Tape.fps := PrimFloat.nan;
     Tape.frame_count := 1%float;
     Tape.frames := [Sample.bgr_frame 10];
     Tape.pos_msec := fun _ => 0%float |}.

(** A container that reports a width of 4 for frames that are 2 wide. *)
Definition wide_report : Tape.File :=
  {| Tape.readable := true;
     Tape.frame_width := 4%float;
     Tape.frame_height := 1%float;
     Tape.fps := 30%float;
     Tape.frame_count := 1%float;
     Tape.frames := [Sample.bgr_frame 10];
     Tape.pos_msec := fun _ => 0%float |}.

(** A session whose second frame has one channel where the first has
    three. *)
Definition mixed_channels : Tape.File :=
  {| Tape.readable := true;
     Tape.frame_width := 2%float;
     Tape.frame_height := 1%float;
     Tape.fps := 30%float;
     Tape.frame_count := 2%float;
     Tape.frames :=
       [Sample.bgr_frame 10;
        {| cv.rows := 1; cv.cols := 2; cv.channels := 1;
           cv.data := [7; 8] |}];
     Tape.pos_msec := fun k => nth k [0; 33]%float 66%float |}.

Definition disk (path : string) : Tape.File :=
  if String.eqb path "nan_rate.mp4" then nan_rate
  else if String.eqb path "wide_report.mp4" then wide_report
  else if String.eqb path "mixed_channels.mp4" then mixed_channels
  else Sample.disk path.

(** A session on a file of [disk] with [k] frames grabbed. *)
Definition session (path : string) (k : nat) : Tape.t :=
  {| Tape.file := disk path; Tape.grabbed := k; Tape.released := false |}.

Definition capture : cv.VideoCapture Tape.t := Tape.capture disk.

End Edge.

(** The invariant of a run: the session pointer is set, the timestamps on
    VIDEO increase strictly, and [prev_timestamp_] is the last of them
    ([Unset] before the first). *)
Definition run_invariant {S : Type} (cc : CalculatorContext)
  (c : Calculator S) : Prop :=
  cap_ c <> None /\
  StronglySorted Timestamp.lt (video_timestamps cc) /\
  prev_timestamp_ c = last (video_timestamps cc) Timestamp.Unset.

(** ** Timestamps *)

Lemma Timestamp_lt_irrefl (a : Timestamp.t) : ~ Timestamp.lt a a.
Proof.
  unfold Timestamp.lt; destruct a; simpl; try discriminate.
  rewrite Z.ltb_irrefl; discriminate.
Qed.

Lemma Timestamp_lt_trans (a b c : Timestamp.t) :
  Timestamp.lt a b -> Timestamp.lt b c -> Timestamp.lt a c.
Proof.
  unfold Timestamp.lt; destruct a, b, c; simpl; try congruence.
  rewrite !Z.ltb_lt; lia.
Qed.

Lemma Timestamp_le_lt_trans (a b c : Timestamp.t) :
  Timestamp.le a b -> Timestamp.lt b c -> Timestamp.lt a c.
Proof.
  unfold Timestamp.le, Timestamp.lt; destruct a, b, c; simpl; try congruence.
  rewrite Z.ltb_ge, !Z.ltb_lt; lia.
Qed.

Lemma Timestamp_le_refl (a : Timestamp.t) : Timestamp.le a a.
Proof.
  unfold Timestamp.le; destruct a; simpl; auto using Z.ltb_irrefl.
Qed.

Lemma Timestamp_lt_le (a b : Timestamp.t) :
  Timestamp.lt a b -> Timestamp.le a b.
Proof.
  unfold Timestamp.le, Timestamp.lt; destruct a, b; simpl; try congruence.
  rewrite Z.ltb_lt, Z.ltb_ge; lia.
Qed.

Lemma Timestamp_le_trans (a b c : Timestamp.t) :
  Timestamp.le a b -> Timestamp.le b c -> Timestamp.le a c.
Proof.
  unfold Timestamp.le; destruct a, b, c; simpl; try congruence.
  rewrite !Z.ltb_ge; lia.
Qed.

Lemma Timestamp_Unset_lt_Micros (us : Z) :
  Timestamp.lt Timestamp.Unset (Timestamp.Micros us).
Proof. reflexivity. Qed.

(** A strictly increasing list stays so when a timestamp above all of its
    members is added at the end. *)
Lemma StronglySorted_snoc (l : list Timestamp.t) (x : Timestamp.t) :
  StronglySorted Timestamp.lt l ->
  (forall y, In y l -> Timestamp.lt y x) ->
  StronglySorted Timestamp.lt (l ++ [x]).
Proof.
  induction 1 as [|a l Hs IH Ha]; intros Hx; simpl.
  - constructor; [constructor | constructor].
  - constructor.
    + apply IH. intros y Hy. apply Hx. now right.
    + rewrite Forall_forall in *. intros y Hy.
      apply in_app_or in Hy. destruct Hy as [Hy|[<-|[]]].
      * now apply Ha.
      * apply Hx. now left.
Qed.

(** ** The format mapping *)

Lemma GetImageFormat_other (n : Z) :
  n <> 1 -> n <> 3 -> n <> 4 -> GetImageFormat n = ImageFormat.UNKNOWN.
Proof.
  intros H1 H3 H4. unfold GetImageFormat.
  destruct n as [|p|p]; try reflexivity.
  destruct p as [[p|p|]|[p|p|]|]; try reflexivity; try congruence;
    destruct p; try reflexivity; congruence.
Qed.

Lemma GetImageFormat_known (n : Z) :
  GetImageFormat n <> ImageFormat.UNKNOWN ->
  ImageFormat.NumberOfChannelsForFormat (GetImageFormat n) = n.
Proof.
  intros H.
  destruct (Z.eq_dec n 1) as [->|H1]; [reflexivity|].
  destruct (Z.eq_dec n 3) as [->|H3]; [reflexivity|].
  destruct (Z.eq_dec n 4) as [->|H4]; [reflexivity|].
  now rewrite GetImageFormat_other in H.
Qed.

Lemma ImageFormat_eqb_eq (a b : ImageFormat.Format) :
  ImageFormat.eqb a b = true <-> a = b.
Proof. destruct a, b; simpl; split; congruence. Qed.

(** ** Counting in 32 bits *)

Lemma wrap_int_succ (x : Z) :
  Cpp.wrap_int (Cpp.wrap_int x + 1) = Cpp.wrap_int (x + 1).
Proof.
  unfold Cpp.wrap_int.
  replace ((x - Cpp.INT_MIN) mod 2 ^ 32 + Cpp.INT_MIN + 1 - Cpp.INT_MIN)
    with ((x - Cpp.INT_MIN) mod 2 ^ 32 + 1) by lia.
  rewrite Zplus_mod_idemp_l. f_equal. f_equal. lia.
Qed.

Lemma wrap_int_in_range (x : Z) :
  Cpp.INT_MIN <= x <= Cpp.INT_MAX -> Cpp.wrap_int x = x.
Proof.
  unfold Cpp.wrap_int, Cpp.INT_MIN, Cpp.INT_MAX. intros H.
  rewrite Z.mod_small; lia.
Qed.

Lemma incremented_from_zero (k : nat) :
  incremented k 0 = Cpp.wrap_int (Z.of_nat k).
Proof.
  unfold incremented. induction k as [|k IH]; [reflexivity|].
  rewrite Nat.iter_succ, IH, wrap_int_succ. f_equal. lia.
Qed.

Lemma incremented_add (a b : nat) (d : Z) :
  incremented (a + b) d = incremented b (incremented a d).
Proof.
  unfold incremented. rewrite Nat.add_comm. apply Nat.iter_add.
Qed.

(** ** One producer step *)



Lemma cvtColor_other (m : cv.Mat) (code : cv.ColorConversionCodes) :
  cv.channels m <> 3 -> cv.channels m <> 4 -> cv.cvtColor m code = None.
Proof.
  intros H3 H4. unfold cv.cvtColor.
  destruct (cv.channels m) as [|p|p]; try reflexivity.
  destruct p as [[p|p|]|[p|p|]|]; try reflexivity; try congruence;
    destruct p; try reflexivity; congruence.
Qed.


Lemma as_format_raises (f : ImageFormat.Format) (m : cv.Mat) :
  f = ImageFormat.SRGB \/ f = ImageFormat.SRGBA ->
  cv.channels m <> 3 -> cv.channels m <> 4 ->
  as_format f m = None.
Proof.
  intros [-> | ->] H3 H4; simpl; now apply cvtColor_other.
Qed.

Section Step.

Context {S : Type} {VC : cv.VideoCapture S}.

Implicit Types (cc : CalculatorContext) (c : Calculator S) (cap : S).

Lemma Process_decode_stop c cap image_frame :
  cv.empty (fst (cv.read cap)) = true ->
  Process_decode c cap image_frame = Some (inl (snd (cv.read cap))).
Proof.
  intros He. unfold Process_decode.
  destruct (cv.read cap) as [frame cap'] eqn:Hr; simpl in *.
  rewrite He. now destruct (ImageFormat.eqb (format_ c) ImageFormat.GRAY8).
Qed.

(** The read and the conversion of a step, through [as_format]. *)
Lemma Process_decode_as_format c cap image_frame frame cap' :
  cv.read cap = (frame, cap') ->
  cv.empty frame = false ->
  format_ c <> ImageFormat.UNKNOWN ->
  Process_decode c cap image_frame =
  match as_format (format_ c) frame with
  | Some m => Some (inr (write_MatView image_frame m, cap'))
  | None => None
  end.
Proof.
  intros Hr He Hf. unfold Process_decode. rewrite Hr, He.
  destruct (format_ c); simpl; congruence.
Qed.



Lemma Process_stop cc c cap :
  cap_ c = Some cap ->
  cv.empty (fst (cv.read cap)) = true ->
  Process cc c = Some (StatusStop, cc, with_cap c (snd (cv.read cap))).
Proof.
  intros Hc He. unfold Process. rewrite Hc.
  now rewrite Process_decode_stop.
Qed.



Lemma Process_raises cc c cap frame cap' :
  cap_ c = Some cap ->
  cv.read cap = (frame, cap') ->
  cv.empty frame = false ->
  format_ c = ImageFormat.SRGB \/ format_ c = ImageFormat.SRGBA ->
  cv.channels frame <> 3 -> cv.channels frame <> 4 ->
  Process cc c = None.
Proof.
  intros Hc Hr He Hf H3 H4. unfold Process. rewrite Hc.
  rewrite (Process_decode_as_format c cap _ frame cap' Hr He)
    by (destruct Hf as [-> | ->]; discriminate).
  now rewrite (as_format_raises _ _ Hf H3 H4).
Qed.

Lemma no_further_frames_read cap :
  no_further_frames cap -> no_further_frames (snd (cv.read cap)).
Proof.
  intros Hno j. specialize (Hno (Datatypes.S j)).
  unfold after_reads in *. now rewrite Nat.iter_succ_r in Hno.
Qed.


Lemma Process_decode_header c cap image_frame image cap' :
  Process_decode c cap image_frame = Some (inr (image, cap')) ->
  Format image = Format image_frame /\
  Width image = Width image_frame /\
  Height image = Height image_frame.
Proof.
  unfold Process_decode, write_MatView.
  destruct (cv.read cap) as [frame cap1].
  destruct (ImageFormat.eqb (format_ c) ImageFormat.GRAY8).
  - destruct (cv.empty frame); [discriminate|].
    destruct (cv.same_shape _ _); intros [= <- _]; auto.
  - destruct (cv.empty frame); [discriminate|].
    destruct (ImageFormat.eqb (format_ c) ImageFormat.SRGB).
    { destruct (cv.cvtColor _ _); [|discriminate].
      destruct (cv.same_shape _ _); intros [= <- _]; auto. }
    destruct (ImageFormat.eqb (format_ c) ImageFormat.SRGBA).
    { destruct (cv.cvtColor _ _); [|discriminate].
      destruct (cv.same_shape _ _); intros [= <- _]; auto. }
    intros [= <- _]; auto.
Qed.

Lemma Process_decode_session c cap image_frame :
  match Process_decode c cap image_frame with
  | Some (inl cap') => cap' = snd (cv.read cap) /\
                       cv.empty (fst (cv.read cap)) = true
  | Some (inr (_, cap')) => cap' = snd (cv.read cap) /\
                            cv.empty (fst (cv.read cap)) = false
  | None => True
  end.
Proof.
  unfold Process_decode. destruct (cv.read cap) as [frame cap1]. simpl.
  destruct (ImageFormat.eqb (format_ c) ImageFormat.GRAY8);
    destruct (cv.empty frame); auto.
  destruct (ImageFormat.eqb (format_ c) ImageFormat.SRGB);
    [destruct (cv.cvtColor _ _); auto|].
  destruct (ImageFormat.eqb (format_ c) ImageFormat.SRGBA);
    [destruct (cv.cvtColor _ _); auto|].
  auto.
Qed.

(** Everything a step that returns has done: [added] is what it put on
    VIDEO. *)
Lemma Process_inv cc c st cc' c' :
  Process cc c = Some (st, cc', c') ->
  exists cap added,
    cap_ c = Some cap /\
    st = status_of_read cap 0 /\
    cap_ c' = Some (snd (cv.read cap)) /\
    width_ c' = width_ c /\ height_ c' = height_ c /\
    frame_count_ c' = frame_count_ c /\ format_ c' = format_ c /\
    packets (VIDEO cc') = packets (VIDEO cc) ++ added /\
    closed (VIDEO cc') = closed (VIDEO cc) /\
    VIDEO_PRESTREAM cc' = VIDEO_PRESTREAM cc /\
    INPUT_FILE_PATH cc' = INPUT_FILE_PATH cc /\
    Forall (frame_has (format_ c) (width_ c) (height_ c)) added /\
    decoded_frames_ c' = incremented (List.length added) (decoded_frames_ c)
    /\
    ((added = [] /\ prev_timestamp_ c' = prev_timestamp_ c) \/
     (exists image,
        added = [(image, position_timestamp cap)] /\
        Timestamp.lt (prev_timestamp_ c) (position_timestamp cap) /\
        prev_timestamp_ c' = position_timestamp cap)).
Proof.
  unfold Process.
  destruct (cap_ c) as [cap|] eqn:Hc; [|discriminate].
  pose proof (Process_decode_session c cap
                (new_ImageFrame (format_ c) (width_ c) (height_ c))) as Hs.
  pose proof (Process_decode_header c cap
                (new_ImageFrame (format_ c) (width_ c) (height_ c))) as Hh.
  assert (Hst : forall b, cv.empty (fst (cv.read cap)) = b ->
            status_of_read cap 0 = if b then StatusStop else OkStatus).
  { intros b <-. reflexivity. }
  destruct (Process_decode _ _ _) as [[cap'|[image cap']]|]; [| |discriminate].
  - destruct Hs as [-> He]. intros [= <- <- <-]. exists cap, [].
    rewrite app_nil_r, (Hst _ He). simpl. repeat split; auto.
  - destruct Hs as [-> He]. specialize (Hh image _ eq_refl). simpl in Hh.
    cbn [prev_timestamp_ with_cap].
    destruct (Timestamp.ltb _ _) eqn:Hlt; intros [= <- <- <-].
    + assert (Hfr : Forall (frame_has (format_ c) (width_ c) (height_ c))
                      [(image, position_timestamp cap)])
        by (constructor; [exact Hh | constructor]).
      exists cap, [(image, position_timestamp cap)]. rewrite (Hst _ He).
      simpl. repeat split; auto. right. exists image. auto.
    + exists cap, []. rewrite app_nil_r, (Hst _ He).
      simpl. repeat split; auto.
Qed.


Lemma video_timestamps_app cc cc' added :
  packets (VIDEO cc') = packets (VIDEO cc) ++ added ->
  video_timestamps cc' = video_timestamps cc ++ map snd added.
Proof. unfold video_timestamps. intros ->. apply map_app. Qed.

Lemma sorted_below_last (l : list Timestamp.t) (d : Timestamp.t) :
  StronglySorted Timestamp.lt l ->
  forall y, In y l -> Timestamp.le y (last l d).
Proof.
  induction 1 as [|a l Hs IH Ha]; intros y Hy; [destruct Hy|].
  destruct l as [|b l].
  - destruct Hy as [<-|[]]. simpl. apply Timestamp_le_refl.
  - change (last (a :: b :: l) d) with (last (b :: l) d).
    destruct Hy as [<-|Hy]; [|now apply IH].
    apply Timestamp_le_trans with (b := b).
    + apply Timestamp_lt_le. rewrite Forall_forall in Ha. apply Ha. now left.
    + apply IH. now left.
Qed.

Lemma run_invariant_Process cc c st cc' c' :
  run_invariant cc c ->
  Process cc c = Some (st, cc', c') ->
  run_invariant cc' c'.
Proof.
  intros (_ & Hs & Hp) Hproc.
  destruct (Process_inv _ _ _ _ _ Hproc)
    as (cap & added & _ & _ & Hc' & _ & _ & _ & _ & Hv & _ & _ & _ & _ & _
        & Hadd).
  split; [rewrite Hc'; discriminate|].
  rewrite (video_timestamps_app _ _ _ Hv).
  destruct Hadd as [[-> Hprev] | (image & -> & Hlt & Hprev)]; simpl.
  - rewrite app_nil_r. split; [exact Hs | congruence].
  - split.
    + apply StronglySorted_snoc; [exact Hs|]. intros y Hy.
      apply Timestamp_le_lt_trans with (b := prev_timestamp_ c);
        [|exact Hlt].
      rewrite Hp. now apply sorted_below_last.
    + now rewrite last_last.
Qed.

Lemma after_reads_succ (k : nat) cap :
  after_reads k (snd (cv.read cap)) = after_reads (Datatypes.S k) cap.
Proof. unfold after_reads. now rewrite Nat.iter_succ_r. Qed.

Lemma status_of_read_succ cap (k : nat) :
  map (status_of_read (snd (cv.read cap))) (seq 0 k) =
  map (status_of_read cap) (seq 1 k).
Proof.
  rewrite <- seq_shift, map_map. apply map_ext. intros i.
  unfold status_of_read. now rewrite after_reads_succ.
Qed.

(** Everything a run that returns has done. *)
Lemma Steps_inv (k : nat) : forall cc c sts cc' c',
  Steps k cc c = Some (sts, cc', c') ->
  exists added,
    width_ c' = width_ c /\ height_ c' = height_ c /\
    frame_count_ c' = frame_count_ c /\ format_ c' = format_ c /\
    packets (VIDEO cc') = packets (VIDEO cc) ++ added /\
    closed (VIDEO cc') = closed (VIDEO cc) /\
    VIDEO_PRESTREAM cc' = VIDEO_PRESTREAM cc /\
    INPUT_FILE_PATH cc' = INPUT_FILE_PATH cc /\
    (List.length added <= k)%nat /\
    Forall (frame_has (format_ c) (width_ c) (height_ c)) added /\
    decoded_frames_ c' = incremented (List.length added) (decoded_frames_ c)
    /\
    (run_invariant cc c -> run_invariant cc' c') /\
    (forall cap, cap_ c = Some cap ->
       sts = map (status_of_read cap) (seq 0 k) /\
       cap_ c' = Some (after_reads k cap)).
Proof.
  induction k as [|k IH]; intros cc c sts cc' c' Hs.
  - simpl in Hs. injection Hs as <- <- <-. exists [].
    rewrite app_nil_r. simpl.
    repeat split; auto; destruct H as (? & ? & ?); assumption.
  - cbn [Steps] in Hs.
    destruct (Process cc c) as [[[st cc1] c1]|] eqn:Hp; [|discriminate].
    destruct (Steps k cc1 c1) as [[[sts1 cc2] c2]|] eqn:Hs1; [|discriminate].
    injection Hs as <- <- <-.
    destruct (Process_inv _ _ _ _ _ Hp)
      as (cap & a1 & Hc & Hst & Hc1 & Hw1 & Hh1 & Hn1 & Hf1 & Hv1 & Hcl1
          & Hpre1 & Hpath1 & Hfr1 & Hd1 & Hadd1).
    destruct (IH _ _ _ _ _ Hs1)
      as (a2 & Hw2 & Hh2 & Hn2 & Hf2 & Hv2 & Hcl2 & Hpre2 & Hpath2 & Hlen2
          & Hfr2 & Hd2 & Hinv2 & Htr2).
    exists (a1 ++ a2).
    split; [congruence|]. split; [congruence|].
    split; [congruence|]. split; [congruence|].
    split. { now rewrite Hv2, Hv1, app_assoc. }
    split; [congruence|]. split; [congruence|]. split; [congruence|].
    split. { rewrite length_app.
             destruct Hadd1 as [[-> _] | (image & -> & _)]; simpl; lia. }
    split. { apply Forall_app. split; [exact Hfr1|].
             now rewrite Hf1, Hw1, Hh1 in Hfr2. }
    split. { rewrite Hd2, Hd1, length_app. symmetry. apply incremented_add. }
    split. { intros Hinv. apply Hinv2.
             now apply run_invariant_Process with (1 := Hinv) (2 := Hp). }
    intros cap0 Hc0. rewrite Hc in Hc0. injection Hc0 as <-.
    destruct (Htr2 _ Hc1) as [-> ->]. split.
    + cbn [seq map]. now rewrite Hst, status_of_read_succ.
    + now rewrite after_reads_succ.
Qed.


(** [Open] sets [cap_], keeps [prev_timestamp_] and [decoded_frames_], and
    adds nothing to VIDEO. *)
Lemma Open_frame cc c :
  let '(_, cc', c') := Open cc c in
  cap_ c' <> None /\
  prev_timestamp_ c' = prev_timestamp_ c /\
  decoded_frames_ c' = decoded_frames_ c /\
  VIDEO cc' = VIDEO cc /\
  INPUT_FILE_PATH cc' = INPUT_FILE_PATH cc.
Proof.
  unfold Open.
  destruct (negb (cv.isOpened (cv.open (INPUT_FILE_PATH cc))));
    [simpl; repeat split; discriminate|].
  destruct (cv.read (cv.open (INPUT_FILE_PATH cc))) as [frame cap].
  destruct (cv.empty frame); [simpl; repeat split; discriminate|].
  destruct (ImageFormat.eqb _ _); [simpl; repeat split; discriminate|].
  destruct (incorrect_metadata _ _ _ _); [simpl; repeat split; discriminate|].
  destruct (HasTag_VIDEO_PRESTREAM cc); simpl; repeat split; discriminate.
Qed.

(** A run leaves VIDEO_PRESTREAM as it is. *)
Lemma Steps_VIDEO_PRESTREAM (n : nat) : forall cc c sts cc' c',
  Steps n cc c = Some (sts, cc', c') ->
  VIDEO_PRESTREAM cc' = VIDEO_PRESTREAM cc.
Proof.
  intros cc c sts cc' c' Hs.
  destruct (Steps_inv n _ _ _ _ _ Hs) as (added & H). tauto.
Qed.

End Step.

(** ** Monotonic timestamps *)

Section Monotonicity.

Context {S : Type} {VC : cv.VideoCapture S}.



(** C4: when the read of a step yields no frame the step returns
    [StatusStop] and adds nothing to the outputs; and once the source
    reports no further frames, each of any number of further invocations
    returns [StatusStop], the context stays as it was, and so do
    [prev_timestamp_] and [decoded_frames_]. *)
Theorem C4_exhausted_source_stops
  (cc : CalculatorContext) (c : Calculator S) (cap : S) :
  cap_ c = Some cap ->
  cv.empty (fst (cv.read cap)) = true ->
  Process cc c = Some (StatusStop, cc, with_cap c (snd (cv.read cap))) /\
  (no_further_frames cap ->
   forall k : nat,
   exists c',
     Steps k cc c = Some (repeat StatusStop k, cc, c') /\
     prev_timestamp_ c' = prev_timestamp_ c /\
     decoded_frames_ c' = decoded_frames_ c).
Proof.
  intros Hc He. split; [now apply Process_stop|].
  clear He. intros Hno k. revert c cap Hc Hno.
  induction k as [|k IH]; intros c cap Hc Hno; [now exists c|].
  cbn [Steps repeat].
  rewrite (Process_stop cc c cap Hc (Hno 0%nat)).
  destruct (IH (with_cap c (snd (cv.read cap))) (snd (cv.read cap))
              eq_refl (no_further_frames_read cap Hno))
    as (c' & Hs & Hprev & Hdec).
  rewrite Hs. now exists c'.
Qed.

End Monotonicity.

(** ** Open *)

Section Opening.

Context {S : Type} {VC : cv.VideoCapture S}.

Implicit Types (cc : CalculatorContext) (c : Calculator S).

Lemma Open_not_opened cc c :
  cv.isOpened (cv.open (INPUT_FILE_PATH cc)) = false ->
  Open cc c =
  (InvalidArgumentError FailToOpenVideoFile, cc,
   with_cap c (cv.open (INPUT_FILE_PATH cc))).
Proof. intros Ho. unfold Open. now rewrite Ho. Qed.

Lemma Open_no_frame cc c frame cap :
  cv.isOpened (cv.open (INPUT_FILE_PATH cc)) = true ->
  cv.read (cv.open (INPUT_FILE_PATH cc)) = (frame, cap) ->
  cv.empty frame = true ->
  exists c', Open cc c = (InvalidArgumentError FailToReadAnyFrames, cc, c').
Proof.
  intros Ho Hr He. unfold Open. rewrite Ho, Hr, He. simpl. eauto.
Qed.

Lemma Open_unsupported cc c frame cap :
  cv.isOpened (cv.open (INPUT_FILE_PATH cc)) = true ->
  cv.read (cv.open (INPUT_FILE_PATH cc)) = (frame, cap) ->
  cv.empty frame = false ->
  GetImageFormat (cv.channels frame) = ImageFormat.UNKNOWN ->
  exists c',
    Open cc c = (InvalidArgumentError UnsupportedVideoFormat, cc, c') /\
    format_ c' = ImageFormat.UNKNOWN.
Proof.
  intros Ho Hr He Hf. unfold Open. rewrite Ho, Hr, He. simpl.
  rewrite Hf. simpl. eexists; split; reflexivity.
Qed.

Lemma Open_incorrect_metadata cc c frame cap :
  cv.isOpened (cv.open (INPUT_FILE_PATH cc)) = true ->
  cv.read (cv.open (INPUT_FILE_PATH cc)) = (frame, cap) ->
  cv.empty frame = false ->
  GetImageFormat (cv.channels frame) <> ImageFormat.UNKNOWN ->
  incorrect_metadata
    (cv.get (cv.open (INPUT_FILE_PATH cc)) cv.CAP_PROP_FPS)
    (Cpp.static_cast_int
       (cv.get (cv.open (INPUT_FILE_PATH cc)) cv.CAP_PROP_FRAME_COUNT))
    (Cpp.static_cast_int
       (cv.get (cv.open (INPUT_FILE_PATH cc)) cv.CAP_PROP_FRAME_WIDTH))
    (Cpp.static_cast_int
       (cv.get (cv.open (INPUT_FILE_PATH cc)) cv.CAP_PROP_FRAME_HEIGHT))
    = true ->
  exists c', Open cc c = (InvalidArgumentError IncorrectMetadata, cc, c').
Proof.
  intros Ho Hr He Hf Hm. unfold Open. rewrite Ho, Hr, He. simpl.
  destruct (ImageFormat.eqb _ _) eqn:Hu.
  - apply ImageFormat_eqb_eq in Hu. contradiction.
  - rewrite Hm. eauto.
Qed.

(** What a successful [Open] went through and what it leaves. *)
Lemma Open_ok_inv cc c cc' c' :
  Open cc c = (OkStatus, cc', c') ->
  let cap0 := cv.open (INPUT_FILE_PATH cc) in
  let fps := cv.get cap0 cv.CAP_PROP_FPS in
  exists frame cap,
    cv.isOpened cap0 = true /\
    cv.read cap0 = (frame, cap) /\
    cv.empty frame = false /\
    GetImageFormat (cv.channels frame) <> ImageFormat.UNKNOWN /\
    incorrect_metadata fps (frame_count_ c') (width_ c') (height_ c')
      = false /\
    cap_ c' = Some (cv.set cap cv.CAP_PROP_POS_AVI_RATIO 0%float) /\
    width_ c' = Cpp.static_cast_int (cv.get cap0 cv.CAP_PROP_FRAME_WIDTH) /\
    height_ c' = Cpp.static_cast_int (cv.get cap0 cv.CAP_PROP_FRAME_HEIGHT) /\
    frame_count_ c' =
      Cpp.static_cast_int (cv.get cap0 cv.CAP_PROP_FRAME_COUNT) /\
    format_ c' = GetImageFormat (cv.channels frame) /\
    prev_timestamp_ c' = prev_timestamp_ c /\
    decoded_frames_ c' = decoded_frames_ c /\
    cc' =
    (if HasTag_VIDEO_PRESTREAM cc
     then add_and_close_VIDEO_PRESTREAM cc
            {| format := format_ c'; width := width_ c';
               height := height_ c'; frame_rate := fps;
               duration :=
                 PrimFloat.div (Cpp.int_to_double (frame_count_ c')) fps |}
     else cc).
Proof.
  unfold Open.
  destruct (cv.isOpened (cv.open (INPUT_FILE_PATH cc))) eqn:Ho;
    [|discriminate].
  destruct (cv.read (cv.open (INPUT_FILE_PATH cc))) as [frame cap] eqn:Hr.
  simpl.
  destruct (cv.empty frame) eqn:He; [discriminate|].
  destruct (ImageFormat.eqb _ _) eqn:Hu; [discriminate|].
  destruct (incorrect_metadata _ _ _ _) eqn:Hm; [discriminate|].
  intros [= <- <-]. exists frame, cap. simpl.
  repeat split; auto.
  intros Hf. rewrite Hf in Hu. discriminate.
Qed.

Lemma incorrect_metadata_true (fps : Cpp.double) (n w h : Z) :
  PrimFloat.leb fps 0%float = true \/ n <= 0 \/ w <= 0 \/ h <= 0 ->
  incorrect_metadata fps n w h = true.
Proof.
  unfold incorrect_metadata. intros [H|[H|[H|H]]].
  - now rewrite H.
  - apply Z.leb_le in H. rewrite H. now rewrite orb_true_r.
  - apply Z.leb_le in H. rewrite H. now rewrite !orb_true_r.
  - apply Z.leb_le in H. rewrite H. now rewrite !orb_true_r.
Qed.

(** C2: the format is a function of the channel count of the probe frame
    alone, 1 to GRAY8, 3 to SRGB, 4 to SRGBA and every other count to
    UNKNOWN; when the session opens and delivers a probe frame, [format_] is
    the image of that frame's channel count, and for a count other than 1,
    3 and 4 [Open] fails with the unsupported-format error and leaves the
    context, so both outputs, untouched. *)
Theorem C2_format_by_channel_count
  (cc : CalculatorContext) (c : Calculator S) (frame : cv.Mat) (cap : S) :
  cv.isOpened (cv.open (INPUT_FILE_PATH cc)) = true ->
  cv.read (cv.open (INPUT_FILE_PATH cc)) = (frame, cap) ->
  cv.empty frame = false ->
  GetImageFormat 1 = ImageFormat.GRAY8 /\
  GetImageFormat 3 = ImageFormat.SRGB /\
  GetImageFormat 4 = ImageFormat.SRGBA /\
  (forall n : Z, n <> 1 -> n <> 3 -> n <> 4 ->
     GetImageFormat n = ImageFormat.UNKNOWN) /\
  format_ (snd (Open cc c)) = GetImageFormat (cv.channels frame) /\
  (cv.channels frame <> 1 -> cv.channels frame <> 3 ->
   cv.channels frame <> 4 ->
   exists c',
     Open cc c = (InvalidArgumentError UnsupportedVideoFormat, cc, c') /\
     error_kind UnsupportedVideoFormat = UnsupportedFormatError /\
     format_ c' = ImageFormat.UNKNOWN).
Proof.
  intros Ho Hr He.
  split; [reflexivity|]. split; [reflexivity|]. split; [reflexivity|].
  split; [exact GetImageFormat_other|]. split.
  - unfold Open. rewrite Ho, Hr, He. simpl.
    destruct (ImageFormat.eqb _ _); [reflexivity|].
    destruct (incorrect_metadata _ _ _ _); [reflexivity|].
    reflexivity.
  - intros H1 H3 H4.
    destruct (Open_unsupported cc c frame cap Ho Hr He
                (GetImageFormat_other _ H1 H3 H4)) as (c' & Hopen & Hf).
    exists c'. repeat split; assumption.
Qed.

(** C3: a successful [Open] on a fresh context that has the VIDEO_PRESTREAM
    output leaves exactly one packet on it, a header at
    [Timestamp::PreStream()] whose duration is [frame_count_ / fps] for the
    probed frame count and frame rate, closes that stream, and has put
    nothing on VIDEO yet; no number of later steps changes the stream. *)
Theorem C3_one_header_before_frames
  (path : string) (w h n : Z) (f : ImageFormat.Format)
  (cc : CalculatorContext) (c : Calculator S) :
  Open (new_context path true) (new_Calculator w h n f) = (OkStatus, cc, c) ->
  let fps := cv.get (cv.open path) cv.CAP_PROP_FPS in
  let header :=
    {| format := format_ c; width := width_ c; height := height_ c;
       frame_rate := fps;
       duration := PrimFloat.div (Cpp.int_to_double (frame_count_ c)) fps |} in
  frame_count_ c =
    Cpp.static_cast_int (cv.get (cv.open path) cv.CAP_PROP_FRAME_COUNT) /\
  VIDEO_PRESTREAM cc =
    Some {| packets := [(header, Timestamp.PreStream)]; closed := true |} /\
  packets (VIDEO cc) = [] /\
  forall (k : nat) sts cc' c',
    Steps k cc c = Some (sts, cc', c') ->
    VIDEO_PRESTREAM cc' = VIDEO_PRESTREAM cc.
Proof.
  intros Hopen fps header.
  destruct (Open_ok_inv _ _ _ _ Hopen)
    as (frame & cap & _ & _ & _ & _ & _ & _ & _ & _ & Hn & _ & _ & _ & Hcc).
  simpl in Hn, Hcc. split; [exact Hn|]. subst cc. simpl.
  split; [reflexivity|]. split; [reflexivity|].
  intros k sts cc' c' Hs.
  now rewrite (Steps_VIDEO_PRESTREAM k _ _ _ _ _ Hs).
Qed.

(** C5, as the code has it: when the session opens, a probe frame is read
    and its format is known, and the frame rate, the frame count, the
    width or the height is not positive, [Open] fails with the
    incorrect-metadata error; and whenever one of the four is not
    positive, whichever check fires first, [Open] fails with an
    [InvalidArgumentError] and leaves the context, so both outputs,
    untouched. *)
Theorem C5_incorrect_metadata_fails_after_probe
  (cc : CalculatorContext) (c : Calculator S) :
  let cap0 := cv.open (INPUT_FILE_PATH cc) in
  let fps := cv.get cap0 cv.CAP_PROP_FPS in
  let n := Cpp.static_cast_int (cv.get cap0 cv.CAP_PROP_FRAME_COUNT) in
  let w := Cpp.static_cast_int (cv.get cap0 cv.CAP_PROP_FRAME_WIDTH) in
  let h := Cpp.static_cast_int (cv.get cap0 cv.CAP_PROP_FRAME_HEIGHT) in
  PrimFloat.leb fps 0%float = true \/ n <= 0 \/ w <= 0 \/ h <= 0 ->
  (exists m c', Open cc c = (InvalidArgumentError m, cc, c')) /\
  (cv.isOpened cap0 = true ->
   cv.empty (fst (cv.read cap0)) = false ->
   GetImageFormat (cv.channels (fst (cv.read cap0))) <> ImageFormat.UNKNOWN ->
   exists c',
     Open cc c = (InvalidArgumentError IncorrectMetadata, cc, c') /\
     error_kind IncorrectMetadata = InvalidMetadataError).
Proof.
  intros cap0 fps n w h Hbad.
  apply incorrect_metadata_true in Hbad.
  assert (Hlast : cv.isOpened cap0 = true ->
    cv.empty (fst (cv.read cap0)) = false ->
    GetImageFormat (cv.channels (fst (cv.read cap0))) <> ImageFormat.UNKNOWN ->
    exists c', Open cc c = (InvalidArgumentError IncorrectMetadata, cc, c')).
  { intros Ho He Hf. destruct (cv.read cap0) as [frame cap] eqn:Hr.
    now apply Open_incorrect_metadata with (frame := frame) (cap := cap). }
  split.
  - destruct (cv.isOpened cap0) eqn:Ho.
    + destruct (cv.read cap0) as [frame cap] eqn:Hr.
      destruct (cv.empty frame) eqn:He.
      * destruct (Open_no_frame cc c frame cap Ho Hr He) as [c' Hc'].
        eauto.
      * destruct (ImageFormat.eqb (GetImageFormat (cv.channels frame))
                    ImageFormat.UNKNOWN) eqn:Hu.
        -- apply ImageFormat_eqb_eq in Hu.
           destruct (Open_unsupported cc c frame cap Ho Hr He Hu)
             as (c' & Hc' & _).
           eauto.
        -- assert (Hf : GetImageFormat (cv.channels frame)
                        <> ImageFormat.UNKNOWN).
           { intros Hf. rewrite Hf in Hu. discriminate. }
           destruct (Hlast eq_refl He Hf) as [c' Hc']. eauto.
    + rewrite (Open_not_opened cc c Ho). eauto.
  - intros Ho He Hf. destruct (Hlast Ho He Hf) as [c' Hc']. eauto.
Qed.

End Opening.

(** ** Colour conversion *)








(** ** Frames, timestamps and teardown *)

Section Producing.

Context {S : Type} {VC : cv.VideoCapture S}.

Implicit Types (cc : CalculatorContext) (c : Calculator S) (cap : S).




Lemma Close_OkStatus c : fst (fst (Close c)) = OkStatus.
Proof. reflexivity. Qed.

(** What [Close] logs after an [Open] that could not open the file, for
    any content [n] of the never assigned [frame_count_]. *)
Lemma Close_after_failed_Open_log (path : string) (prestream : bool)
  (w h n : Z) (f : ImageFormat.Format) :
  cv.isOpened (cv.open path) = false ->
  snd (fst (Close (snd (Open (new_context path prestream)
                          (new_Calculator w h n f))))) =
  if n =? 0 then [] else [WARNING_not_all_decoded n 0].
Proof.
  intros Ho. rewrite Open_not_opened by exact Ho.
  unfold Close. simpl. rewrite Ho. simpl.
  now destruct n.
Qed.

(** C7: [Close] returns [OkStatus] from every state; and after an [Open]
    that failed because the file could not be opened, on a calculator
    whose [frame_count_] storage holds zero, [Close] logs nothing,
    [frame_count_] and [decoded_frames_] being both zero, and leaves the
    calculator as it is. *)
Theorem C7_Close_after_failed_Open
  (path : string) (prestream : bool) (w h : Z) (f : ImageFormat.Format) :
  cv.isOpened (cv.open path) = false ->
  exists c',
    Open (new_context path prestream) (new_Calculator w h 0 f) =
    (InvalidArgumentError FailToOpenVideoFile,
     new_context path prestream, c') /\
    frame_count_ c' = 0 /\
    decoded_frames_ c' = 0 /\
    Close c' = (OkStatus, [], c') /\
    forall c : Calculator S, fst (fst (Close c)) = OkStatus.
Proof.
  intros Ho. eexists. split.
  - apply Open_not_opened. simpl. exact Ho.
  - simpl. repeat split.
    unfold Close. simpl.
    destruct prestream; simpl; rewrite Ho; reflexivity.
Qed.

End Producing.

(** ** Sessions over a list of frames *)

Section Taped.

Variable disk : string -> Tape.File.


Lemma Tape_read_no_frame (s : Tape.t) :
  cv.empty (fst (Tape.read s)) = true -> snd (Tape.read s) = s.
Proof.
  unfold Tape.read.
  destruct (Tape.isOpened s); [|reflexivity].
  destruct (nth_error _ _) as [m|]; [|reflexivity].
  destruct (cv.empty m) eqn:Hm; [reflexivity|].
  simpl. congruence.
Qed.

(** A session that delivers no frame once delivers none any more. *)
Lemma Tape_no_further_frames (s : Tape.t) :
  cv.empty (fst (Tape.read s)) = true ->
  no_further_frames (VC := Tape.capture disk) s.
Proof.
  intros He k.
  assert (Hk : after_reads (VC := Tape.capture disk) k s = s).
  { induction k as [|k IH]; [reflexivity|].
    unfold after_reads in *. rewrite Nat.iter_succ, IH.
    now apply Tape_read_no_frame. }
  rewrite Hk. exact He.
Qed.





End Taped.

(** ** The rewind *)


Section Rewinding.

Context {S : Type} {VC : cv.VideoCapture S}.


End Rewinding.

(** ** The sample files, run *)

(** The clip end to end: the frame at the repeated position is left out,
    the steps past the last frame return [StatusStop], and [Close] reports
    three frames against the four the container announced. *)
Example clip_end_to_end :
  let '(st, cc, c) := Sample.opened in
  st = OkStatus /\
  match Steps (VC := Sample.capture) 6 cc c with
  | Some (sts, cc', c') =>
      sts = [OkStatus; OkStatus; OkStatus; OkStatus; StatusStop; StatusStop]
      /\ video_timestamps cc' =
         [Timestamp.Micros 0; Timestamp.Micros 33000; Timestamp.Micros 66000]
      /\ map (fun p => PixelData (fst p)) (packets (VIDEO cc')) =
         [Some [12; 11; 10; 15; 14; 13]; Some [22; 21; 20; 25; 24; 23];
          Some [42; 41; 40; 45; 44; 43]]
      /\ fst (Close (VC := Sample.capture) c') =
         (OkStatus, [WARNING_not_all_decoded 4 3])
  | None => False
  end.
Proof. vm_compute. repeat split. Qed.

(** A grey frame goes out as it was decoded, a four-channel frame with
    blue and red exchanged and alpha in place. *)
Example gray_and_bgra_first_frames :
  let first (path : string) :=
    let '(_, cc, c) :=
      Open (VC := Sample.capture) (new_context path false)
        (new_Calculator 0 0 0 ImageFormat.UNKNOWN) in
    option_map
      (fun r => map (fun p => (Format (fst p), PixelData (fst p)))
                  (packets (VIDEO (snd (fst r)))))
      (Process (VC := Sample.capture) cc c) in
  first "gray.mp4"%string = Some [(ImageFormat.GRAY8, Some [7; 8])] /\
  first "bgra.mp4"%string =
    Some [(ImageFormat.SRGBA, Some [3; 2; 1; 4; 7; 6; 5; 8])].
Proof. vm_compute. split; reflexivity. Qed.


(** A file of two-channel frames. *)
Lemma C2_witness :
  exists c',
    Open (VC := Sample.capture) (new_context "two_channels.mp4" true)
      (new_Calculator 0 0 0 ImageFormat.SRGB) =
    (InvalidArgumentError UnsupportedVideoFormat,
     new_context "two_channels.mp4" true, c') /\
    format_ c' = ImageFormat.UNKNOWN.
Proof.
  destruct (C2_format_by_channel_count (VC := Sample.capture)
              (new_context "two_channels.mp4" true)
              (new_Calculator 0 0 0 ImageFormat.SRGB)
              (fst (Tape.read (Sample.session "two_channels.mp4" 0)))
              (snd (Tape.read (Sample.session "two_channels.mp4" 0)))
              ltac:(vm_compute; reflexivity)
              ltac:(vm_compute; reflexivity)
              ltac:(vm_compute; reflexivity))
    as (_ & _ & _ & _ & _ & H).
  destruct H as (c' & Hopen & _ & Hf);
    [vm_compute; discriminate ..|].
  exists c'. auto.
Defined.

(** The header of the clip: four frames at 30 a second. *)
Lemma C3_witness :
  VIDEO_PRESTREAM (snd (fst Sample.opened)) =
  Some {| packets :=
            [({| format := ImageFormat.SRGB; width := 2; height := 1;
                 frame_rate := 30%float;
                 duration := PrimFloat.div 4%float 30%float |},
              Timestamp.PreStream)];
          closed := true |} /\
  packets (VIDEO (snd (fst Sample.opened))) = [].
Proof.
  destruct (C3_one_header_before_frames (VC := Sample.capture)
              "clip.mp4" 0 0 0 ImageFormat.UNKNOWN
              (snd (fst Sample.opened)) (snd Sample.opened)
              ltac:(vm_compute; reflexivity))
    as (_ & Hpre & Hvid & _).
  split; [|exact Hvid]. rewrite Hpre. vm_compute. reflexivity.
Defined.

(** Three more steps at the end of the clip. *)
Lemma C4_witness :
  exists c',
    Steps (VC := Sample.capture) 3 (snd (fst Sample.opened)) Sample.at_end =
    Some ([StatusStop; StatusStop; StatusStop], snd (fst Sample.opened), c') /\
    prev_timestamp_ c' = Timestamp.Micros 66000 /\
    decoded_frames_ c' = 3.
Proof.
  destruct (C4_exhausted_source_stops (VC := Sample.capture)
              (snd (fst Sample.opened)) Sample.at_end
              (Sample.session "clip.mp4" 4) eq_refl
              ltac:(vm_compute; reflexivity))
    as [_ H].
  exact (H (Tape_no_further_frames Sample.disk
              (Sample.session "clip.mp4" 4)
              ltac:(vm_compute; reflexivity))
           3%nat).
Defined.

(** A clip that decodes, reported with a frame count of 0. *)
Lemma C5_witness :
  exists c',
    Open (VC := Sample.capture) (new_context "no_count.mp4" true)
      (new_Calculator 0 0 0 ImageFormat.UNKNOWN) =
    (InvalidArgumentError IncorrectMetadata,
     new_context "no_count.mp4" true, c').
Proof.
  destruct (C5_incorrect_metadata_fails_after_probe (VC := Sample.capture)
              (new_context "no_count.mp4" true)
              (new_Calculator 0 0 0 ImageFormat.UNKNOWN)
              ltac:(right; left; vm_compute; discriminate))
    as [_ H].
  destruct H as (c' & Hopen & _);
    [vm_compute; reflexivity | vm_compute; reflexivity
     | vm_compute; discriminate |].
  exists c'. exact Hopen.
Defined.

(** Against C5 as the specification states it, a truncated file: the
    container reports no frame (a frame count of 0, not positive) and no
    frame can be read, and [Open] fails with the message of the probe
    read, an [OpenError] of the specification, not with the
    incorrect-metadata error. *)
Lemma C5_counterexample :
  let cc := new_context "no_frames.mp4" true in
  let cap0 := cv.open (VideoCapture := Sample.capture) (INPUT_FILE_PATH cc) in
  Cpp.static_cast_int
    (cv.get (VideoCapture := Sample.capture) cap0 cv.CAP_PROP_FRAME_COUNT)
    <= 0 /\
  fst (fst (Open (VC := Sample.capture) cc
              (new_Calculator 0 0 0 ImageFormat.UNKNOWN))) =
    InvalidArgumentError FailToReadAnyFrames /\
  error_kind FailToReadAnyFrames <> InvalidMetadataError.
Proof.
  split; [vm_compute; discriminate|].
  split; [vm_compute; reflexivity | discriminate].
Qed.



(** A path nothing is at. *)
Lemma C7_witness :
  exists c',
    Open (VC := Sample.capture) (new_context "nowhere.mp4" true)
      (new_Calculator 0 0 0 ImageFormat.UNKNOWN) =
    (InvalidArgumentError FailToOpenVideoFile,
     new_context "nowhere.mp4" true, c') /\
    Close (VC := Sample.capture) c' = (OkStatus, [], c').
Proof.
  destruct (C7_Close_after_failed_Open (VC := Sample.capture)
              "nowhere.mp4" true 0 0 ImageFormat.UNKNOWN
              ltac:(vm_compute; reflexivity))
    as (c' & Hopen & _ & _ & Hclose & _).
  exists c'. auto.
Defined.





(** ** More on [Open] *)

Section OpenOutcomes.

Context {S : Type} {VC : cv.VideoCapture S}.

Implicit Types (cc : CalculatorContext) (c : Calculator S).

Lemma incorrect_metadata_false (fps : Cpp.double) (n w h : Z) :
  incorrect_metadata fps n w h = false ->
  PrimFloat.leb fps 0%float = false /\ 0 < n /\ 0 < w /\ 0 < h.
Proof.
  unfold incorrect_metadata. intros H.
  apply orb_false_elim in H. destruct H as [H Hh].
  apply orb_false_elim in H. destruct H as [H Hw].
  apply orb_false_elim in H. destruct H as [Hf Hn].
  apply Z.leb_gt in Hh, Hw, Hn. auto.
Qed.

(** The status of [Open], check by check. *)
Lemma Open_status cc c :
  let cap0 := cv.open (INPUT_FILE_PATH cc) in
  fst (fst (Open cc c)) =
  if negb (cv.isOpened cap0) then InvalidArgumentError FailToOpenVideoFile
  else if cv.empty (fst (cv.read cap0))
  then InvalidArgumentError FailToReadAnyFrames
  else if ImageFormat.eqb (GetImageFormat (cv.channels (fst (cv.read cap0))))
            ImageFormat.UNKNOWN
  then InvalidArgumentError UnsupportedVideoFormat
  else if incorrect_metadata (cv.get cap0 cv.CAP_PROP_FPS)
            (Cpp.static_cast_int (cv.get cap0 cv.CAP_PROP_FRAME_COUNT))
            (Cpp.static_cast_int (cv.get cap0 cv.CAP_PROP_FRAME_WIDTH))
            (Cpp.static_cast_int (cv.get cap0 cv.CAP_PROP_FRAME_HEIGHT))
  then InvalidArgumentError IncorrectMetadata
  else OkStatus.
Proof.
  intros cap0. unfold Open. fold cap0.
  destruct (negb (cv.isOpened cap0)); [reflexivity|].
  destruct (cv.read cap0) as [frame cap]. simpl.
  destruct (cv.empty frame); [reflexivity|].
  destruct (ImageFormat.eqb _ _); [reflexivity|].
  destruct (incorrect_metadata _ _ _ _); reflexivity.
Qed.

(** [Open] returns [OkStatus] exactly when the file opens, a probe frame
    is read, its channel count is 1, 3 or 4, and the frame rate, frame
    count, width and height are all positive; it never returns
    [StatusStop]. *)
Theorem Open_OkStatus_iff cc c :
  let cap0 := cv.open (INPUT_FILE_PATH cc) in
  let n := cv.channels (fst (cv.read cap0)) in
  (fst (fst (Open cc c)) = OkStatus <->
   cv.isOpened cap0 = true /\
   cv.empty (fst (cv.read cap0)) = false /\
   (n = 1 \/ n = 3 \/ n = 4) /\
   PrimFloat.leb (cv.get cap0 cv.CAP_PROP_FPS) 0%float = false /\
   0 < Cpp.static_cast_int (cv.get cap0 cv.CAP_PROP_FRAME_COUNT) /\
   0 < Cpp.static_cast_int (cv.get cap0 cv.CAP_PROP_FRAME_WIDTH) /\
   0 < Cpp.static_cast_int (cv.get cap0 cv.CAP_PROP_FRAME_HEIGHT)) /\
  fst (fst (Open cc c)) <> StatusStop.
Proof.
  intros cap0 n. pose proof (Open_status cc c) as Hs. cbv zeta in Hs.
  fold cap0 in Hs. fold n in Hs. rewrite Hs. clear Hs.
  destruct (cv.isOpened cap0); simpl;
    [|split; [split; [discriminate | intros [? _]; discriminate]
             | discriminate]].
  destruct (cv.empty (fst (cv.read cap0))); simpl;
    [split; [split; [discriminate | intros (_ & ? & _); discriminate]
            | discriminate]|].
  destruct (ImageFormat.eqb (GetImageFormat n) ImageFormat.UNKNOWN) eqn:Hu.
  - apply ImageFormat_eqb_eq in Hu.
    split; [split; [discriminate|] | discriminate].
    intros (_ & _ & Hn & _).
    destruct Hn as [Hn|[Hn|Hn]]; rewrite Hn in Hu; discriminate.
  - assert (Hn : n = 1 \/ n = 3 \/ n = 4).
    { destruct (Z.eq_dec n 1); [auto|]. destruct (Z.eq_dec n 3); [auto|].
      destruct (Z.eq_dec n 4); [auto|].
      rewrite GetImageFormat_other in Hu by assumption. discriminate. }
    destruct (incorrect_metadata _ _ _ _) eqn:Hm.
    + split; [split; [discriminate|] | discriminate].
      intros (_ & _ & _ & Hf & H1 & H2 & H3).
      unfold incorrect_metadata in Hm. rewrite Hf in Hm.
      apply Z.leb_gt in H1, H2, H3. rewrite H1, H2, H3 in Hm. discriminate.
    + apply incorrect_metadata_false in Hm.
      split; [split; [intros _|reflexivity] | discriminate].
      repeat split; tauto.
Qed.

(** [Open] changes the context only when it succeeds and the graph has
    the VIDEO_PRESTREAM output: on every failure, and on success without
    that output, the context is as before. *)
Theorem Open_changes_context_only_for_header cc c :
  fst (fst (Open cc c)) <> OkStatus \/ HasTag_VIDEO_PRESTREAM cc = false ->
  snd (fst (Open cc c)) = cc.
Proof.
  unfold Open.
  destruct (negb (cv.isOpened (cv.open (INPUT_FILE_PATH cc))));
    [reflexivity|].
  destruct (cv.read (cv.open (INPUT_FILE_PATH cc))) as [frame cap].
  destruct (cv.empty frame); [reflexivity|].
  destruct (ImageFormat.eqb _ _); [reflexivity|].
  destruct (incorrect_metadata _ _ _ _); [reflexivity|].
  simpl. intros [H|H]; [congruence|]. now rewrite H.
Qed.

(** [Open] never resets the emission state: whatever it returns,
    [prev_timestamp_] and [decoded_frames_] keep the values they had
    before the call, and nothing is added to VIDEO. *)
Theorem Open_keeps_emission_state cc c :
  prev_timestamp_ (snd (Open cc c)) = prev_timestamp_ c /\
  decoded_frames_ (snd (Open cc c)) = decoded_frames_ c /\
  VIDEO (snd (fst (Open cc c))) = VIDEO cc.
Proof.
  pose proof (Open_frame cc c) as H.
  destruct (Open cc c) as [[st cc'] c']. simpl. tauto.
Qed.

(** After a successful [Open] the recorded width, height and frame count
    are positive, the frame rate is not at or below zero, and the format
    is one of GRAY8, SRGB and SRGBA. *)
Theorem Open_OkStatus_metadata cc c cc' c' :
  Open cc c = (OkStatus, cc', c') ->
  0 < width_ c' /\ 0 < height_ c' /\ 0 < frame_count_ c' /\
  PrimFloat.leb (cv.get (cv.open (INPUT_FILE_PATH cc)) cv.CAP_PROP_FPS)
    0%float = false /\
  (format_ c' = ImageFormat.GRAY8 \/ format_ c' = ImageFormat.SRGB \/
   format_ c' = ImageFormat.SRGBA).
Proof.
  intros Hopen.
  destruct (Open_ok_inv _ _ _ _ Hopen)
    as (frame & cap & _ & _ & _ & Hf & Hm & _ & _ & _ & _ & Hfmt & _).
  apply incorrect_metadata_false in Hm. destruct Hm as (Hfps & Hn & Hw & Hh).
  repeat split; try assumption.
  rewrite <- Hfmt in Hf. destruct (format_ c'); auto. congruence.
Qed.

(** The check [fps <= 0] lets a frame rate that is not a number through:
    with such a rate and everything else in order [Open] succeeds and
    records the rate in the header it emits. *)
Theorem Open_accepts_nan_frame_rate cc c :
  let cap0 := cv.open (INPUT_FILE_PATH cc) in
  cv.get cap0 cv.CAP_PROP_FPS = PrimFloat.nan ->
  cv.isOpened cap0 = true ->
  cv.empty (fst (cv.read cap0)) = false ->
  GetImageFormat (cv.channels (fst (cv.read cap0))) <> ImageFormat.UNKNOWN ->
  0 < Cpp.static_cast_int (cv.get cap0 cv.CAP_PROP_FRAME_COUNT) ->
  0 < Cpp.static_cast_int (cv.get cap0 cv.CAP_PROP_FRAME_WIDTH) ->
  0 < Cpp.static_cast_int (cv.get cap0 cv.CAP_PROP_FRAME_HEIGHT) ->
  fst (fst (Open cc c)) = OkStatus /\
  forall s, VIDEO_PRESTREAM cc = Some s ->
    exists header,
      VIDEO_PRESTREAM (snd (fst (Open cc c))) =
        Some (CloseStream (Add s header Timestamp.PreStream)) /\
      frame_rate header = PrimFloat.nan.
Proof.
  intros cap0 Hfps Ho He Hf Hn Hw Hh.
  assert (Hm : incorrect_metadata (cv.get cap0 cv.CAP_PROP_FPS)
            (Cpp.static_cast_int (cv.get cap0 cv.CAP_PROP_FRAME_COUNT))
            (Cpp.static_cast_int (cv.get cap0 cv.CAP_PROP_FRAME_WIDTH))
            (Cpp.static_cast_int (cv.get cap0 cv.CAP_PROP_FRAME_HEIGHT))
          = false).
  { unfold incorrect_metadata. rewrite Hfps.
    apply Z.leb_gt in Hn, Hw, Hh. rewrite Hn, Hw, Hh. reflexivity. }
  assert (Hu : ImageFormat.eqb
                 (GetImageFormat (cv.channels (fst (cv.read cap0))))
                 ImageFormat.UNKNOWN = false).
  { destruct (ImageFormat.eqb _ _) eqn:Hu; [|reflexivity].
    apply ImageFormat_eqb_eq in Hu. contradiction. }
  unfold Open. fold cap0. rewrite Ho.
  destruct (cv.read cap0) as [frame cap]. simpl in *.
  rewrite He. simpl. rewrite Hu, Hm. split; [reflexivity|].
  intros s Hs. unfold HasTag_VIDEO_PRESTREAM. rewrite Hs. simpl.
  rewrite Hs. eexists. split; [reflexivity|]. simpl. exact Hfps.
Qed.

End OpenOutcomes.

(** ** More on runs *)


Section RunProperties.

Context {S : Type} {VC : cv.VideoCapture S}.

Implicit Types (cc : CalculatorContext) (c : Calculator S) (cap : S).


(** Under SRGB or SRGBA a frame whose channel count is neither 3 nor 4
    makes [cv::cvtColor] raise: the step returns no status, and neither
    does any run that starts with it; nothing of it reaches the outputs
    the caller sees. *)
Theorem Process_raises_on_unconvertible_frame
  cc c cap (frame : cv.Mat) cap' :
  cap_ c = Some cap ->
  cv.read cap = (frame, cap') ->
  cv.empty frame = false ->
  format_ c = ImageFormat.SRGB \/ format_ c = ImageFormat.SRGBA ->
  cv.channels frame <> 3 ->
  cv.channels frame <> 4 ->
  Process cc c = None /\
  forall k : nat, Steps (Datatypes.S k) cc c = None.
Proof.
  intros Hc Hr He Hf H3 H4.
  pose proof (Process_raises cc c cap frame cap' Hc Hr He Hf H3 H4) as Hp.
  split; [exact Hp|]. intros k. cbn [Steps]. now rewrite Hp.
Qed.

(** A run only appends to VIDEO, at most one packet per invocation: the
    packets that were there stay, in place; the run does not close VIDEO
    and leaves VIDEO_PRESTREAM and the input side packet alone. *)
Theorem Steps_only_append_to_VIDEO (k : nat) cc c sts cc' c' :
  Steps k cc c = Some (sts, cc', c') ->
  exists added,
    packets (VIDEO cc') = packets (VIDEO cc) ++ added /\
    (List.length added <= k)%nat /\
    closed (VIDEO cc') = closed (VIDEO cc) /\
    VIDEO_PRESTREAM cc' = VIDEO_PRESTREAM cc /\
    INPUT_FILE_PATH cc' = INPUT_FILE_PATH cc.
Proof.
  intros Hs. destruct (Steps_inv k _ _ _ _ _ Hs) as (added & H).
  exists added. tauto.
Qed.

(** A run changes none of the members [Open] recorded: width, height,
    frame count and format are after any number of steps what they were
    before. *)
Theorem Steps_keep_metadata (k : nat) cc c sts cc' c' :
  Steps k cc c = Some (sts, cc', c') ->
  width_ c' = width_ c /\ height_ c' = height_ c /\
  frame_count_ c' = frame_count_ c /\ format_ c' = format_ c.
Proof.
  intros Hs. destruct (Steps_inv k _ _ _ _ _ Hs) as (added & H). tauto.
Qed.

(** After a successful [Open] with the VIDEO_PRESTREAM output, every
    frame a run has put on VIDEO has the format, the width and the height
    the header announced. *)
Theorem frames_match_header
  (path : string) (w h n : Z) (f : ImageFormat.Format) cc c
  (k : nat) sts cc' c' :
  Open (new_context path true) (new_Calculator w h n f) = (OkStatus, cc, c) ->
  Steps k cc c = Some (sts, cc', c') ->
  exists header,
    VIDEO_PRESTREAM cc' =
      Some {| packets := [(header, Timestamp.PreStream)]; closed := true |} /\
    Forall (frame_has (format header) (width header) (height header))
      (packets (VIDEO cc')).
Proof.
  intros Hopen Hs.
  destruct (Open_ok_inv _ _ _ _ Hopen)
    as (frame & cap & _ & _ & _ & _ & _ & _ & _ & _ & _ & _ & _ & _ & Hcc).
  destruct (Steps_inv k _ _ _ _ _ Hs)
    as (added & _ & _ & _ & _ & Hv & _ & Hpre & _ & _ & Hfr & _).
  eexists. rewrite Hpre, Hv.
  subst cc. simpl. split; [reflexivity|]. exact Hfr.
Qed.

(** After a successful [Open] on a fresh calculator, [decoded_frames_] is
    at every point a run reaches the number of frames on VIDEO (as a
    32-bit int, so exactly that number while it does not pass
    [INT_MAX]). *)
Theorem decoded_frames_counts_VIDEO
  (path : string) (prestream : bool) (w h n : Z) (f : ImageFormat.Format)
  cc c (k : nat) sts cc' c' :
  Open (new_context path prestream) (new_Calculator w h n f)
    = (OkStatus, cc, c) ->
  Steps k cc c = Some (sts, cc', c') ->
  decoded_frames_ c' =
    Cpp.wrap_int (Z.of_nat (List.length (packets (VIDEO cc')))) /\
  (Z.of_nat k <= Cpp.INT_MAX ->
   decoded_frames_ c' = Z.of_nat (List.length (packets (VIDEO cc')))).
Proof.
  intros Hopen Hs.
  pose proof (Open_frame (new_context path prestream)
                (new_Calculator w h n f)) as Hfr.
  rewrite Hopen in Hfr. destruct Hfr as (_ & _ & Hd & Hvid & _).
  destruct (Steps_inv k _ _ _ _ _ Hs)
    as (added & _ & _ & _ & _ & Hv & _ & _ & _ & Hlen & _ & Hdec & _).
  rewrite Hvid in Hv. simpl in Hv, Hd. rewrite Hv, Hdec, Hd.
  rewrite incremented_from_zero. split; [reflexivity|].
  intros Hk. apply wrap_int_in_range.
  unfold Cpp.INT_MIN, Cpp.INT_MAX in *. lia.
Qed.

(** After a successful [Open] on a fresh calculator and a run of at most
    [INT_MAX] steps, [Close] logs nothing when the number of frames on
    VIDEO is the frame count [Open] recorded, and otherwise logs one
    warning that names both numbers. *)
Theorem Close_warns_iff_counts_differ
  (path : string) (prestream : bool) (w h n : Z) (f : ImageFormat.Format)
  cc c (k : nat) sts cc' c' :
  Open (new_context path prestream) (new_Calculator w h n f)
    = (OkStatus, cc, c) ->
  Steps k cc c = Some (sts, cc', c') ->
  Z.of_nat k <= Cpp.INT_MAX ->
  let emitted := Z.of_nat (List.length (packets (VIDEO cc'))) in
  Close c' =
  (OkStatus,
   if emitted =? frame_count_ c then []
   else [WARNING_not_all_decoded (frame_count_ c) emitted],
   snd (Close c')).
Proof.
  intros Hopen Hs Hk.
  pose proof (Open_frame (new_context path prestream)
                (new_Calculator w h n f)) as Hfr.
  rewrite Hopen in Hfr. destruct Hfr as (_ & _ & Hd & Hvid & _).
  destruct (Steps_inv k _ _ _ _ _ Hs)
    as (added & _ & _ & Hn & _ & Hv & _ & _ & _ & Hlen & _ & Hdec & _).
  rewrite Hvid in Hv. simpl in Hv, Hd. rewrite Hv. simpl.
  rewrite Hd, incremented_from_zero, wrap_int_in_range in Hdec
    by (unfold Cpp.INT_MIN, Cpp.INT_MAX in *; lia).
  unfold Close.
  assert (Hsame : forall c2 : Calculator S,
            decoded_frames_ c2 = decoded_frames_ c' ->
            frame_count_ c2 = frame_count_ c' ->
            (if negb (decoded_frames_ c2 =? frame_count_ c2)
             then [WARNING_not_all_decoded (frame_count_ c2)
                     (decoded_frames_ c2)]
             else []) =
            (if Z.of_nat (List.length added) =? frame_count_ c then []
             else [WARNING_not_all_decoded (frame_count_ c)
                     (Z.of_nat (List.length added))])).
  { intros c2 -> ->. rewrite Hdec, Hn.
    now destruct (Z.of_nat (List.length added) =? frame_count_ c). }
  cbn zeta. rewrite Hsame; [reflexivity| |];
    destruct (cap_ c') as [cap1|]; try reflexivity;
    destruct (cv.isOpened cap1); reflexivity.
Qed.

(** On sessions that are not opened any more once released, a second
    [Close] changes nothing and logs what the first one logged. *)
Theorem Close_twice c :
  (forall s : S, cv.isOpened (cv.release s) = false) ->
  Close (snd (Close c)) = (OkStatus, snd (fst (Close c)), snd (Close c)).
Proof.
  intros Hrel. unfold Close. simpl.
  destruct (cap_ c) as [cap|] eqn:Hc; simpl; [|now rewrite Hc].
  destruct (cv.isOpened cap) eqn:Ho; simpl.
  - now rewrite Hrel.
  - now rewrite Hc, Ho.
Qed.

(** On such sessions [Close] leaves no session opened: neither right
    after [Open], whether it succeeded or failed, nor after a run that
    followed a successful [Open]. *)
Theorem Close_leaves_no_session_opened cc c :
  (forall s : S, cv.isOpened (cv.release s) = false) ->
  (exists s,
     cap_ (snd (Close (snd (Open cc c)))) = Some s /\
     cv.isOpened s = false) /\
  (forall (k : nat) sts cc' c',
     fst (fst (Open cc c)) = OkStatus ->
     Steps k (snd (fst (Open cc c))) (snd (Open cc c)) = Some (sts, cc', c') ->
     exists s,
       cap_ (snd (Close c')) = Some s /\ cv.isOpened s = false).
Proof.
  intros Hrel.
  assert (Hclose : forall c1 : Calculator S, cap_ c1 <> None ->
            exists s, cap_ (snd (Close c1)) = Some s /\ cv.isOpened s = false).
  { intros c1 Hc1. unfold Close. simpl.
    destruct (cap_ c1) as [cap|] eqn:Hc; [|congruence].
    destruct (cv.isOpened cap) eqn:Ho.
    - exists (cv.release cap). simpl. auto.
    - exists cap. simpl. auto. }
  pose proof (Open_frame cc c) as Hfr.
  destruct (Open cc c) as [[st cc1] c1]. destruct Hfr as (Hcap & _). simpl.
  split; [now apply Hclose|].
  intros k sts cc' c' _ Hs. apply Hclose.
  destruct (cap_ c1) as [cap|] eqn:Hc; [|congruence].
  destruct (Steps_inv k _ _ _ _ _ Hs) as (added & H).
  destruct H as (_ & _ & _ & _ & _ & _ & _ & _ & _ & _ & _ & _ & Htr).
  destruct (Htr cap Hc) as [_ ->]. discriminate.
Qed.

End RunProperties.

(** Channel counts that have a format have different formats, and the
    channel counts that have one are 1, 3 and 4. *)
Theorem GetImageFormat_injective_on_supported (a b : Z) :
  GetImageFormat a = GetImageFormat b ->
  GetImageFormat a <> ImageFormat.UNKNOWN ->
  a = b /\ (a = 1 \/ a = 3 \/ a = 4).
Proof.
  intros Hab Ha.
  assert (Hb : GetImageFormat b <> ImageFormat.UNKNOWN) by congruence.
  pose proof (GetImageFormat_known a Ha) as Ka.
  pose proof (GetImageFormat_known b Hb) as Kb.
  split; [congruence|].
  destruct (Z.eq_dec a 1); [auto|]. destruct (Z.eq_dec a 3); [auto|].
  destruct (Z.eq_dec a 4); [auto|].
  now rewrite GetImageFormat_other in Ha.
Qed.

(** ** The sample files, run further *)

Lemma Tape_release_closes (disk : string -> Tape.File) (s : Tape.t) :
  cv.isOpened (VideoCapture := Tape.capture disk)
    (cv.release (VideoCapture := Tape.capture disk) s) = false.
Proof.
  simpl. unfold Tape.isOpened, Tape.release. simpl.
  now destruct (Tape.readable (Tape.file s)).
Qed.

(** A truncated file leaves the context as it was. *)
Lemma Open_changes_context_only_for_header_witness :
  snd (fst (Open (VC := Sample.capture) (new_context "no_frames.mp4" true)
              (new_Calculator 0 0 0 ImageFormat.UNKNOWN))) =
  new_context "no_frames.mp4" true.
Proof.
  apply (Open_changes_context_only_for_header (VC := Sample.capture)).
  left. vm_compute. discriminate.
Defined.

(** The clip: 2 by 1, four frames, SRGB. *)
Lemma Open_OkStatus_metadata_witness :
  0 < width_ (snd Sample.opened) /\ 0 < height_ (snd Sample.opened) /\
  0 < frame_count_ (snd Sample.opened) /\
  format_ (snd Sample.opened) <> ImageFormat.UNKNOWN.
Proof.
  destruct (Open_OkStatus_metadata (VC := Sample.capture)
              (new_context "clip.mp4" true)
              (new_Calculator 0 0 0 ImageFormat.UNKNOWN)
              (snd (fst Sample.opened)) (snd Sample.opened)
              ltac:(vm_compute; reflexivity))
    as (Hw & Hh & Hn & _ & Hf).
  repeat split; try assumption.
  destruct Hf as [Hf|[Hf|Hf]]; rewrite Hf; discriminate.
Defined.

(** A file whose frame rate is not a number opens. *)
Lemma Open_accepts_nan_frame_rate_witness :
  fst (fst (Open (VC := Edge.capture) (new_context "nan_rate.mp4" true)
              (new_Calculator 0 0 0 ImageFormat.UNKNOWN))) = OkStatus.
Proof.
  apply (Open_accepts_nan_frame_rate (VC := Edge.capture)
           (new_context "nan_rate.mp4" true)
           (new_Calculator 0 0 0 ImageFormat.UNKNOWN));
    vm_compute; (reflexivity || discriminate).
Defined.


(** The second frame of a file has one channel where the first, which
    fixed the format SRGB, has three: the second step raises. *)
Lemma Process_raises_on_unconvertible_frame_witness :
  Process (VC := Edge.capture) (new_context "mixed_channels.mp4" false)
    {| cap_ := Some (Edge.session "mixed_channels.mp4" 1);
       width_ := 2; height_ := 1; frame_count_ := 2; decoded_frames_ := 1;
       format_ := ImageFormat.SRGB;
       prev_timestamp_ := Timestamp.Micros 0 |} = None.
Proof.
  apply (Process_raises_on_unconvertible_frame (VC := Edge.capture)
           (new_context "mixed_channels.mp4" false) _
           (Edge.session "mixed_channels.mp4" 1)
           {| cv.rows := 1; cv.cols := 2; cv.channels := 1;
              cv.data := [7; 8] |}
           (Edge.session "mixed_channels.mp4" 2));
    vm_compute; (reflexivity || discriminate || (left; reflexivity)).
Defined.

(** Two steps from the middle of the clip add one frame. *)
Lemma Steps_only_append_to_VIDEO_witness :
  exists added,
    (List.length added <= 2)%nat /\
    match Steps (VC := Sample.capture) 2 (snd (fst Sample.opened))
            Sample.midway with
    | Some (_, cc', _) =>
        packets (VIDEO cc') = packets (VIDEO (snd (fst Sample.opened)))
                                ++ added
    | None => False
    end.
Proof.
  destruct (Steps (VC := Sample.capture) 2 (snd (fst Sample.opened))
              Sample.midway) as [[[sts cc'] c']|] eqn:Hs;
    [|vm_compute in Hs; discriminate].
  destruct (Steps_only_append_to_VIDEO (VC := Sample.capture) 2
              _ _ _ _ _ Hs) as (added & Hv & Hlen & _).
  exists added. auto.
Defined.

(** Six steps on the clip keep what [Open] recorded. *)
Lemma Steps_keep_metadata_witness :
  match Steps (VC := Sample.capture) 6 (snd (fst Sample.opened))
          (snd Sample.opened) with
  | Some (_, _, c') =>
      width_ c' = 2 /\ height_ c' = 1 /\ frame_count_ c' = 4 /\
      format_ c' = ImageFormat.SRGB
  | None => False
  end.
Proof.
  destruct (Steps (VC := Sample.capture) 6 (snd (fst Sample.opened))
              (snd Sample.opened)) as [[[sts cc'] c']|] eqn:Hs;
    [|vm_compute in Hs; discriminate].
  exact (Steps_keep_metadata (VC := Sample.capture) 6 _ _ _ _ _ Hs).
Defined.

(** The frames of the clip are SRGB, 2 by 1, as its header says. *)
Lemma frames_match_header_witness :
  match Steps (VC := Sample.capture) 6 (snd (fst Sample.opened))
          (snd Sample.opened) with
  | Some (_, cc', _) =>
      exists header,
        VIDEO_PRESTREAM cc' =
          Some {| packets := [(header, Timestamp.PreStream)];
                  closed := true |} /\
        Forall (frame_has (format header) (width header) (height header))
          (packets (VIDEO cc'))
  | None => False
  end.
Proof.
  destruct (Steps (VC := Sample.capture) 6 (snd (fst Sample.opened))
              (snd Sample.opened)) as [[[sts cc'] c']|] eqn:Hs;
    [|vm_compute in Hs; discriminate].
  exact (frames_match_header (VC := Sample.capture)
           "clip.mp4" 0 0 0 ImageFormat.UNKNOWN
           (snd (fst Sample.opened)) (snd Sample.opened) 6 sts cc' c'
           ltac:(vm_compute; reflexivity) Hs).
Defined.

(** The clip after six steps: [decoded_frames_] is the number of frames
    on VIDEO. *)
Lemma decoded_frames_counts_VIDEO_witness :
  match Steps (VC := Sample.capture) 6 (snd (fst Sample.opened))
          (snd Sample.opened) with
  | Some (_, cc', c') =>
      decoded_frames_ c' = Z.of_nat (List.length (packets (VIDEO cc')))
  | None => False
  end.
Proof.
  destruct (Steps (VC := Sample.capture) 6 (snd (fst Sample.opened))
              (snd Sample.opened)) as [[[sts cc'] c']|] eqn:Hs;
    [|vm_compute in Hs; discriminate].
  apply (decoded_frames_counts_VIDEO (VC := Sample.capture)
           "clip.mp4" true 0 0 0 ImageFormat.UNKNOWN
           (snd (fst Sample.opened)) (snd Sample.opened) 6 sts cc' c'
           ltac:(vm_compute; reflexivity) Hs).
  vm_compute. discriminate.
Defined.

(** The clip after six steps: [Close] reports, the frame count being 4. *)
Lemma Close_warns_iff_counts_differ_witness :
  match Steps (VC := Sample.capture) 6 (snd (fst Sample.opened))
          (snd Sample.opened) with
  | Some (_, cc', c') =>
      let emitted := Z.of_nat (List.length (packets (VIDEO cc'))) in
      Close (VC := Sample.capture) c' =
      (OkStatus,
       if emitted =? 4 then []
       else [WARNING_not_all_decoded 4 emitted],
       snd (Close (VC := Sample.capture) c'))
  | None => False
  end.
Proof.
  destruct (Steps (VC := Sample.capture) 6 (snd (fst Sample.opened))
              (snd Sample.opened)) as [[[sts cc'] c']|] eqn:Hs;
    [|vm_compute in Hs; discriminate].
  exact (Close_warns_iff_counts_differ (VC := Sample.capture)
           "clip.mp4" true 0 0 0 ImageFormat.UNKNOWN
           (snd (fst Sample.opened)) (snd Sample.opened) 6 sts cc' c'
           ltac:(vm_compute; reflexivity) Hs
           ltac:(vm_compute; discriminate)).
Defined.

(** [Close] twice at the end of the clip. *)
Lemma Close_twice_witness :
  Close (VC := Sample.capture)
    (snd (Close (VC := Sample.capture) Sample.at_end)) =
  (OkStatus, [WARNING_not_all_decoded 4 3],
   snd (Close (VC := Sample.capture) Sample.at_end)).
Proof.
  exact (Close_twice (VC := Sample.capture) Sample.at_end
           (Tape_release_closes Sample.disk)).
Defined.

(** [Open] on a truncated file, then [Close]: nothing is left opened. *)
Lemma Close_leaves_no_session_opened_witness :
  exists s,
    cap_ (snd (Close (VC := Sample.capture)
                 (snd (Open (VC := Sample.capture)
                         (new_context "no_frames.mp4" true)
                         (new_Calculator 0 0 0 ImageFormat.UNKNOWN)))))
    = Some s /\
    cv.isOpened (VideoCapture := Sample.capture) s = false.
Proof.
  exact (proj1 (Close_leaves_no_session_opened (VC := Sample.capture)
                  (new_context "no_frames.mp4" true)
                  (new_Calculator 0 0 0 ImageFormat.UNKNOWN)
                  (Tape_release_closes Sample.disk))).
Defined.

(** The channel count that shares the format of 3 is 3. *)
Lemma GetImageFormat_injective_on_supported_witness :
  3 = 3 /\ (3 = 1 \/ 3 = 3 \/ 3 = 4).
Proof.
  exact (GetImageFormat_injective_on_supported 3 3 eq_refl
           ltac:(vm_compute; discriminate)).
Defined.
